(** * The controllable latent worker of buildbot's test suite

    A shallow embedding of [master/buildbot/test/fake/latent.py]: the
    [LatentController] that drives a [ControllableLatentWorker] through the
    four lifecycle states, together with the properties of its state
    machine, of the kind compatibility check and of the health probe.
    The [BuilderStatus] of [master/buildbot/status/builder_compat.py]
    follows, with its tags, builds in progress, big state and watchers. *)

From Stdlib Require Import String.
From stdpp Require Import base option list strings pretty gmap.

Set Default Proof Using "Type".

(** ** The lifecycle states ([class States(enum.Enum)]) *)

Inductive States := STOPPED | STARTING | STARTED | STOPPING.

#[global] Instance States_eq_dec : EqDecision States.
Proof. solve_decision. Defined.

(** The four edges that the assignments to [self.state] may follow. *)
Definition edge (a b : States) : bool :=
  match a, b with
  | STOPPED, STARTING | STARTING, STARTED
  | STARTED, STOPPING | STOPPING, STOPPED => true
  | _, _ => false
  end.

(** Python exceptions that the modelled methods can raise. *)
Inductive exn :=
| AssertionError      (* a failed [assert] *)
| SkipTest            (* raised by [connect_worker] without buildbot-worker *)
| AttributeError      (* [d.callback] on [None] *)
| TypeError           (* [await] on an object that is not awaitable *)
| AlreadyCalledError. (* [d.callback] on a Deferred that already fired *)

(** What a caller of the worker's [start_instance] or [stop_instance] holds:
    a result that is already there ([defer.succeed(True)], [return True]) or
    the Deferred, named by its address, on which it waits. *)
Inductive outcome :=
| Resolved (r : bool)
| Pending (d : nat).

(** What a method of the worker package hands back to an [await]: an
    awaitable that completes, or an object that cannot be awaited ([None],
    say), on which [await] raises [TypeError]. *)
Inductive returned := Awaitable | NotAwaitable.

Section Latent.

(** The collaborators that live outside the file: build objects, the
    configured kind (a value or a renderable), Python's truth value of that
    object, [build.render], whose result is [None] or a kind token,
    whether the import of [buildbot_worker] succeeded (the module level
    [RemoteWorker]), and what the [setServiceParent] of that class
    returns. *)
Context {Build Kind V : Type} `{EqDecision V}.
Variable kind_truthy : Kind -> bool.
Variable render : Build -> Kind -> option V.
Variable RemoteWorker : bool.
Variable setServiceParent : returned.

(** The three shapes of [self._started_kind_deferred]: [None], the Deferred
    returned by [build.render(self.kind)] (with the value it resolves to), or
    the kind object itself, stored by the [else] branch of [setup_kind]. *)
Inductive kind_slot :=
| SlotNone
| SlotDeferred (v : option V)
| SlotRaw (k : Kind).

(** [if self._started_kind_deferred:] a Deferred is an ordinary object and
    therefore true. *)
Definition slot_truthy (s : kind_slot) : bool :=
  match s with
  | SlotNone => false
  | SlotDeferred _ => true
  | SlotRaw k => kind_truthy k
  end.

(** The attributes of a [LatentController].  [deferreds] is the store of
    the Deferred objects created by [defer.Deferred()], indexed by address:
    [None] while the Deferred has not fired, [Some r] once [callback(r)] ran.
    [workers_made] counts the [RemoteWorker] objects constructed so far and
    names the next one. *)
Record LatentController := mkController {
  build_wait_timeout : nat;
  has_crashed : bool;
  remote_worker : option nat;
  state : States;
  auto_stop_flag : bool;
  auto_start_flag : bool;
  auto_connect_worker : bool;
  auto_disconnect_worker : bool;
  _start_deferred : option nat;
  _stop_deferred : option nat;
  kind : Kind;
  _started_kind : option V;
  _started_kind_deferred : kind_slot;
  deferreds : list (option bool);
  workers_made : nat
}.

(** [LatentController.__init__] *)
Definition init (k : Kind) (timeout : nat) : LatentController :=
  {| build_wait_timeout := timeout;
     has_crashed := false;
     remote_worker := None;
     state := STOPPED;
     auto_stop_flag := false;
     auto_start_flag := false;
     auto_connect_worker := true;
     auto_disconnect_worker := true;
     _start_deferred := None;
     _stop_deferred := None;
     kind := k;
     _started_kind := None;
     _started_kind_deferred := SlotNone;
     deferreds := [];
     workers_made := 0 |}.

(** Attribute assignment. *)
Definition with_state (x : States) (c : LatentController) :=
  mkController (build_wait_timeout c) (has_crashed c) (remote_worker c) x
    (auto_stop_flag c) (auto_start_flag c) (auto_connect_worker c)
    (auto_disconnect_worker c) (_start_deferred c) (_stop_deferred c) (kind c)
    (_started_kind c) (_started_kind_deferred c) (deferreds c) (workers_made c).

Definition with_has_crashed (x : bool) (c : LatentController) :=
  mkController (build_wait_timeout c) x (remote_worker c) (state c)
    (auto_stop_flag c) (auto_start_flag c) (auto_connect_worker c)
    (auto_disconnect_worker c) (_start_deferred c) (_stop_deferred c) (kind c)
    (_started_kind c) (_started_kind_deferred c) (deferreds c) (workers_made c).

Definition with_remote_worker (x : option nat) (c : LatentController) :=
  mkController (build_wait_timeout c) (has_crashed c) x (state c)
    (auto_stop_flag c) (auto_start_flag c) (auto_connect_worker c)
    (auto_disconnect_worker c) (_start_deferred c) (_stop_deferred c) (kind c)
    (_started_kind c) (_started_kind_deferred c) (deferreds c) (workers_made c).

Definition with_auto_stop_flag (x : bool) (c : LatentController) :=
  mkController (build_wait_timeout c) (has_crashed c) (remote_worker c) (state c)
    x (auto_start_flag c) (auto_connect_worker c)
    (auto_disconnect_worker c) (_start_deferred c) (_stop_deferred c) (kind c)
    (_started_kind c) (_started_kind_deferred c) (deferreds c) (workers_made c).

Definition with_auto_start_flag (x : bool) (c : LatentController) :=
  mkController (build_wait_timeout c) (has_crashed c) (remote_worker c) (state c)
    (auto_stop_flag c) x (auto_connect_worker c)
    (auto_disconnect_worker c) (_start_deferred c) (_stop_deferred c) (kind c)
    (_started_kind c) (_started_kind_deferred c) (deferreds c) (workers_made c).

Definition with_auto_connect_worker (x : bool) (c : LatentController) :=
  mkController (build_wait_timeout c) (has_crashed c) (remote_worker c) (state c)
    (auto_stop_flag c) (auto_start_flag c) x
    (auto_disconnect_worker c) (_start_deferred c) (_stop_deferred c) (kind c)
    (_started_kind c) (_started_kind_deferred c) (deferreds c) (workers_made c).

Definition with_auto_disconnect_worker (x : bool) (c : LatentController) :=
  mkController (build_wait_timeout c) (has_crashed c) (remote_worker c) (state c)
    (auto_stop_flag c) (auto_start_flag c) (auto_connect_worker c)
    x (_start_deferred c) (_stop_deferred c) (kind c)
    (_started_kind c) (_started_kind_deferred c) (deferreds c) (workers_made c).

Definition with_start_deferred (x : option nat) (c : LatentController) :=
  mkController (build_wait_timeout c) (has_crashed c) (remote_worker c) (state c)
    (auto_stop_flag c) (auto_start_flag c) (auto_connect_worker c)
    (auto_disconnect_worker c) x (_stop_deferred c) (kind c)
    (_started_kind c) (_started_kind_deferred c) (deferreds c) (workers_made c).

Definition with_stop_deferred (x : option nat) (c : LatentController) :=
  mkController (build_wait_timeout c) (has_crashed c) (remote_worker c) (state c)
    (auto_stop_flag c) (auto_start_flag c) (auto_connect_worker c)
    (auto_disconnect_worker c) (_start_deferred c) x (kind c)
    (_started_kind c) (_started_kind_deferred c) (deferreds c) (workers_made c).

Definition with_started_kind (x : option V) (c : LatentController) :=
  mkController (build_wait_timeout c) (has_crashed c) (remote_worker c) (state c)
    (auto_stop_flag c) (auto_start_flag c) (auto_connect_worker c)
    (auto_disconnect_worker c) (_start_deferred c) (_stop_deferred c) (kind c)
    x (_started_kind_deferred c) (deferreds c) (workers_made c).

Definition with_started_kind_deferred (x : kind_slot) (c : LatentController) :=
  mkController (build_wait_timeout c) (has_crashed c) (remote_worker c) (state c)
    (auto_stop_flag c) (auto_start_flag c) (auto_connect_worker c)
    (auto_disconnect_worker c) (_start_deferred c) (_stop_deferred c) (kind c)
    (_started_kind c) x (deferreds c) (workers_made c).

Definition with_deferreds (x : list (option bool)) (c : LatentController) :=
  mkController (build_wait_timeout c) (has_crashed c) (remote_worker c) (state c)
    (auto_stop_flag c) (auto_start_flag c) (auto_connect_worker c)
    (auto_disconnect_worker c) (_start_deferred c) (_stop_deferred c) (kind c)
    (_started_kind c) (_started_kind_deferred c) x (workers_made c).

Definition with_workers_made (x : nat) (c : LatentController) :=
  mkController (build_wait_timeout c) (has_crashed c) (remote_worker c) (state c)
    (auto_stop_flag c) (auto_start_flag c) (auto_connect_worker c)
    (auto_disconnect_worker c) (_start_deferred c) (_stop_deferred c) (kind c)
    (_started_kind c) (_started_kind_deferred c) (deferreds c) x.

(** ** What a method does besides changing attributes

    Each assignment to [self.state] is recorded with the state it replaces;
    the calls into code outside the file are recorded in the order in which
    they happen. *)
Inductive event :=
| EvState (a b : States)       (* [self.state = b], executed in state [a] *)
| EvRender (b : Build)         (* [b.render(self.kind)] *)
| EvAwaitKind                  (* [await self._started_kind_deferred] *)
| EvCallback (d : nat) (r : bool)  (* [d.callback(r)] *)
| EvMkWorkdir                  (* [case.mktemp()], [createDirectory()] *)
| EvAttach (w : nat)           (* [remote_worker.setServiceParent(worker)] *)
| EvSever                      (* [super().disconnect_worker()] *)
| EvDisconnectMaster           (* [disconnect_master_side_worker(worker)] *)
| EvDisown (w : nat).          (* [worker.disownServiceParent()] *)

(** ** Methods as state transformers

    A method maps the controller to the controller it leaves behind, the
    events it caused, and either the exception it raised or its value.  An
    exception does not undo the assignments made before it.  What
    [setServiceParent] returns is a collaborator of the section; the other
    awaited calls into external code ([disownServiceParent], the mixin's
    [disconnect_worker], the Deferred of [build.render]) are taken to have
    completed when control returns. *)
Definition M (A : Type) : Type :=
  LatentController -> LatentController * list event * (exn + A).

Definition ret {A} (a : A) : M A := fun c => (c, [], inr a).

Definition raise {A} (e : exn) : M A := fun c => (c, [], inl e).

Definition bind {A B} (m : M A) (k : A -> M B) : M B :=
  fun c =>
    match m c with
    | (c1, t1, inl e) => (c1, t1, inl e)
    | (c1, t1, inr a) =>
        match k a c1 with
        | (c2, t2, r) => (c2, t1 ++ t2, r)
        end
    end.

Definition get : M LatentController := fun c => (c, [], inr c).

Definition modify (f : LatentController -> LatentController) : M unit :=
  fun c => (f c, [], inr tt).

Definition emit (e : event) : M unit := fun c => (c, [e], inr tt).

(** A call whose Deferred is dropped by the caller: a failure stays inside
    that Deferred, the assignments that preceded it remain. *)
Definition detached {A} (m : M A) : M unit :=
  fun c => match m c with (c1, t1, _) => (c1, t1, inr tt) end.

Notation "x <- m ;; k" := (bind m (fun x => k))
  (at level 100, m at next level, right associativity).
Notation "m ;;; k" := (bind m (fun _ => k))
  (at level 100, right associativity).

Definition assert (b : bool) : M unit :=
  if b then ret tt else raise AssertionError.

(** [self.state = x] *)
Definition set_state (x : States) : M unit :=
  fun c => (with_state x c, [EvState (state c) x], inr tt).

(** [defer.Deferred()] *)
Definition new_deferred : M nat :=
  fun c => (with_deferreds (deferreds c ++ [None]) c, [], inr (length (deferreds c))).

(** [d.callback(result)] where [d] was read from an attribute. *)
Definition callback (d : option nat) (result : bool) : M unit :=
  match d with
  | None => raise AttributeError
  | Some i =>
      c <- get ;;
      match deferreds c !! i with
      | Some None =>
          modify (with_deferreds (<[i := Some result]> (deferreds c))) ;;;
          emit (EvCallback i result)
      | _ => raise AlreadyCalledError
      end
  end.

(** [await x] for what a method of the worker package returned. *)
Definition await_returned (x : returned) : M unit :=
  match x with
  | Awaitable => ret tt
  | NotAwaitable => raise TypeError
  end.

(** ** [LatentController] *)

Definition connect_worker : M unit :=
  c <- get ;;
  match remote_worker c with
  | Some _ => ret tt
  | None =>
      if RemoteWorker then
        emit EvMkWorkdir ;;;
        modify (fun c => with_workers_made (S (workers_made c))
                           (with_remote_worker (Some (workers_made c)) c)) ;;;
        emit (EvAttach (workers_made c)) ;;;
        await_returned setServiceParent
      else raise SkipTest
  end.

Definition disconnect_worker : M unit :=
  emit EvSever ;;;
  c <- get ;;
  match remote_worker c with
  | None => ret tt
  | Some w =>
      modify (with_remote_worker None) ;;;
      emit EvDisconnectMaster ;;;
      emit (EvDisown w)
  end.

Definition do_start_instance (result : bool) : M unit :=
  c <- get ;;
  assert (bool_decide (state c = STARTING)) ;;;
  set_state STARTED ;;;
  if auto_connect_worker c && result then connect_worker else ret tt.

Definition LatentController_start_instance (result : bool) : M unit :=
  do_start_instance result ;;;
  c <- get ;;
  modify (with_start_deferred None) ;;;
  callback (_start_deferred c) result.

Definition auto_start (result : bool) : M unit :=
  modify (with_auto_start_flag result) ;;;
  c <- get ;;
  if auto_start_flag c && bool_decide (state c = STARTING)
  then detached (LatentController_start_instance true)
  else ret tt.

Definition do_stop_instance : M unit :=
  c <- get ;;
  assert (bool_decide (state c = STOPPING)) ;;;
  set_state STOPPED ;;;
  modify (with_started_kind None) ;;;
  if auto_disconnect_worker c then disconnect_worker else ret tt.

Definition LatentController_stop_instance (result : bool) : M unit :=
  do_stop_instance ;;;
  c <- get ;;
  modify (with_stop_deferred None) ;;;
  callback (_stop_deferred c) result.

Definition auto_stop (result : bool) : M unit :=
  modify (with_auto_stop_flag result) ;;;
  c <- get ;;
  if auto_stop_flag c && bool_decide (state c = STOPPING)
  then LatentController_stop_instance true
  else ret tt.

(** [if build:] a build object is true, [None] is not. *)
Definition setup_kind (build : option Build) : M unit :=
  c <- get ;;
  match build with
  | Some b =>
      emit (EvRender b) ;;;
      modify (with_started_kind_deferred (SlotDeferred (render b (kind c))))
  | None =>
      modify (with_started_kind_deferred (SlotRaw (kind c)))
  end.

(** [await x]: the value of a Deferred; a [TypeError] for the kind object,
    which is no awaitable. *)
Definition await_slot (s : kind_slot) : M (option V) :=
  match s with
  | SlotDeferred v => emit EvAwaitKind ;;; ret v
  | SlotRaw _ | SlotNone => raise TypeError
  end.

Definition get_started_kind : M (option V) :=
  c <- get ;;
  (if slot_truthy (_started_kind_deferred c) then
     v <- await_slot (_started_kind_deferred c) ;;
     modify (with_started_kind v) ;;;
     modify (with_started_kind_deferred SlotNone)
   else ret tt) ;;;
  c' <- get ;;
  ret (_started_kind c').

(** ** [ControllableLatentWorker] *)

Definition isCompatibleWithBuild (build_props : Build) : M bool :=
  c <- get ;;
  if bool_decide (state c = STOPPED) then ret true
  else
    emit (EvRender build_props) ;;;
    curr_kind <- get_started_kind ;;
    ret (bool_decide (render build_props (kind c) = curr_kind)).

Definition ControllableLatentWorker_start_instance (build : option Build) : M outcome :=
  setup_kind build ;;;
  c <- get ;;
  assert (bool_decide (state c = STOPPED)) ;;;
  set_state STARTING ;;;
  if auto_start_flag c then
    detached (do_start_instance true) ;;;
    ret (Resolved true)
  else
    d <- new_deferred ;;
    modify (with_start_deferred (Some d)) ;;;
    ret (Pending d).

Definition ControllableLatentWorker_stop_instance (fast : bool) : M outcome :=
  c <- get ;;
  assert (bool_decide (state c = STARTED)) ;;;
  set_state STOPPING ;;;
  if auto_stop_flag c then
    do_stop_instance ;;;
    ret (Resolved true)
  else
    d <- new_deferred ;;
    modify (with_stop_deferred (Some d)) ;;;
    ret (Pending d).

Definition check_instance (c : LatentController) : bool * string :=
  (negb (has_crashed c), EmptyString).

(** ** Executions

    The three components of running a method on a controller. *)
Definition final {A} (m : M A) (c : LatentController) : LatentController :=
  (m c).1.1.

Definition events {A} (m : M A) (c : LatentController) : list event :=
  (m c).1.2.

Definition value {A} (m : M A) (c : LatentController) : exn + A :=
  (m c).2.

(** Everything a test can do to a controller and its worker: call a method
    of either class or assign one of the public flags. *)
Inductive call :=
| CallAutoStart (result : bool)
| CallStartInstance (result : bool)
| CallDoStartInstance (result : bool)
| CallAutoStop (result : bool)
| CallStopInstance (result : bool)
| CallDoStopInstance
| CallConnectWorker
| CallDisconnectWorker
| CallSetupKind (build : option Build)
| CallGetStartedKind
| CallIsCompatibleWithBuild (build_props : Build)
| CallWorkerStartInstance (build : option Build)
| CallWorkerStopInstance (fast : bool)
| CallCheckInstance
| SetHasCrashed (b : bool)
| SetAutoConnectWorker (b : bool)
| SetAutoDisconnectWorker (b : bool).

Definition exec (op : call) : M unit :=
  match op with
  | CallAutoStart r => auto_start r
  | CallStartInstance r => detached (LatentController_start_instance r)
  | CallDoStartInstance r => detached (do_start_instance r)
  | CallAutoStop r => detached (auto_stop r)
  | CallStopInstance r => detached (LatentController_stop_instance r)
  | CallDoStopInstance => detached do_stop_instance
  | CallConnectWorker => detached connect_worker
  | CallDisconnectWorker => detached disconnect_worker
  | CallSetupKind b => setup_kind b
  | CallGetStartedKind => detached get_started_kind
  | CallIsCompatibleWithBuild b => detached (isCompatibleWithBuild b)
  | CallWorkerStartInstance b => detached (ControllableLatentWorker_start_instance b)
  | CallWorkerStopInstance f => detached (ControllableLatentWorker_stop_instance f)
  | CallCheckInstance => c <- get ;; let _ := check_instance c in ret tt
  | SetHasCrashed b => modify (with_has_crashed b)
  | SetAutoConnectWorker b => modify (with_auto_connect_worker b)
  | SetAutoDisconnectWorker b => modify (with_auto_disconnect_worker b)
  end.

Definition run (ops : list call) (c : LatentController) : LatentController :=
  foldl (fun c op => final (exec op) c) c ops.

(** The controllers that a test can bring about from a fresh one. *)
Definition reachable (c : LatentController) : Prop :=
  exists k timeout ops, c = run ops (init k timeout).

(** The assignments to [self.state] among the events of a call. *)
Fixpoint transitions (t : list event) : list (States * States) :=
  match t with
  | [] => []
  | EvState a b :: t' => (a, b) :: transitions t'
  | _ :: t' => transitions t'
  end.

(** Following a list of assignments from state [s]: the state reached, if
    every assignment starts where the previous one ended. *)
Fixpoint follow (s : States) (l : list (States * States)) : option States :=
  match l with
  | [] => Some s
  | (a, b) :: l' => if bool_decide (a = s) then follow b l' else None
  end.

(** The slot does not hold a true object that cannot be awaited. *)
Definition awaitable (c : LatentController) : bool :=
  match _started_kind_deferred c with
  | SlotRaw k => negb (kind_truthy k)
  | _ => true
  end.

(** The controller after [get_started_kind] has read the slot: a rendering
    that was waiting there has become the stored kind. *)
Definition settled (c : LatentController) : LatentController :=
  match _started_kind_deferred c with
  | SlotDeferred v => with_started_kind_deferred SlotNone (with_started_kind v c)
  | _ => c
  end.

(** A lifecycle operation that is in flight has its Deferred in place, and
    that Deferred has not fired yet. *)
Definition waiter_in_place (c : LatentController) : Prop :=
  (state c = STARTING ->
     exists d, _start_deferred c = Some d /\ deferreds c !! d = Some None) /\
  (state c = STOPPING ->
     exists d, _stop_deferred c = Some d /\ deferreds c !! d = Some None).

(** Resolving a start with [result] has [connect_worker] make a new
    session: the controller connects by itself, the start succeeded and no
    session is attached. *)
Definition attaches (result : bool) (c : LatentController) : bool :=
  auto_connect_worker c && result && bool_decide (remote_worker c = None).

(** The exception with which the making of a new session ends, if any:
    [SkipTest] without the worker package, [TypeError] when what
    [setServiceParent] returns cannot be awaited. *)
Definition attach_failure : option exn :=
  if RemoteWorker then
    match setServiceParent with
    | Awaitable => None
    | NotAwaitable => Some TypeError
    end
  else Some SkipTest.

(** The events of a whole sequence of calls, in order. *)
Fixpoint run_events (ops : list call) (c : LatentController) : list event :=
  match ops with
  | [] => []
  | op :: ops' => events (exec op) c ++ run_events ops' (final (exec op) c)
  end.


End Latent.

(** The state that follows [s] on the cycle of the four edges. *)
Definition next_state (s : States) : States :=
  match s with
  | STOPPED => STARTING
  | STARTING => STARTED
  | STARTED => STOPPING
  | STOPPING => STOPPED
  end.

(** [ControllableLatentWorker._generate_random_password], on the worker's
    attribute [_random_password_id]: the counter after the call and the
    password returned, [f'password_{self._random_password_id}']. *)
Definition _generate_random_password (_random_password_id : nat) : nat * string :=
  let id := S _random_password_id in
  (id, "password_" +:+ pretty id).

(** The passwords returned by [n] calls in a row. *)
Fixpoint generated_passwords (n : nat) (_random_password_id : nat) : list string :=
  match n with
  | 0 => []
  | S n' =>
      let '(id, password) := _generate_random_password _random_password_id in
      password :: generated_passwords n' id
  end.


(** ** A concrete set of collaborators

    The configured kind is a literal ([None] or a string) or a
    [Property(name)] renderable; a build is its list of properties;
    rendering a literal gives the literal and rendering a property looks it
    up, with [None] when the build does not define it. *)
Module Sample.

Inductive KindExpr :=
| Literal (v : option string)
| Property (name : string).

Definition Props : Type := list (string * string).

Definition truthy (k : KindExpr) : bool :=
  match k with
  | Literal None => false
  | Literal (Some s) => negb (bool_decide (s = EmptyString))
  | Property _ => true
  end.

Fixpoint getProperty (name : string) (b : Props) : option string :=
  match b with
  | [] => None
  | (n, v) :: b' => if bool_decide (n = name) then Some v else getProperty name b'
  end.

Definition render_kind (b : Props) (k : KindExpr) : option string :=
  match k with
  | Literal v => v
  | Property name => getProperty name b
  end.

Definition large : Props := [("worker_kind", "large")]%string.

Definition unspecified : Props := [].

(** A controller made with [kind=Property("worker_kind")]. *)
Definition fresh : @LatentController KindExpr string :=
  init (Property "worker_kind") 600.

Definition go (ops : list (@call Props)) :=
  run truthy render_kind true Awaitable ops fresh.

(** A start without a build is in flight. *)
Definition starting_without_build := go [CallWorkerStartInstance None].

(** A start is in flight. *)
Definition starting := go [CallWorkerStartInstance (Some large)].

(** A start is in flight and the kind of the instance has been read. *)
Definition starting_large :=
  go [CallWorkerStartInstance (Some large); CallGetStartedKind].

(** Started with kind ["large"]. *)
Definition started_large :=
  go [CallWorkerStartInstance (Some large); CallStartInstance true;
      CallIsCompatibleWithBuild large].

(** A stop of that instance is in flight. *)
Definition stopping_large :=
  go [CallWorkerStartInstance (Some large); CallStartInstance true;
      CallIsCompatibleWithBuild large; CallWorkerStopInstance false].


End Sample.

(** * The builder status of the status layer

    [master/buildbot/status/builder_compat.py]: the parts of
    [BuilderStatus] that work on its own attributes, namely the tags, the
    builds in progress, the big state and the watchers. *)
Module BuilderStatus.

(** A build status object: its identity, [number] and [getResults()]. *)
Record Build := mkBuild {
  ident : nat;
  number : Z;
  getResults : nat
}.

#[global] Instance Build_eq_dec : EqDecision Build.
Proof. solve_decision. Defined.

(** The attributes that [__init__] sets and the class gives defaults for;
    a watcher is named by the identity of the receiver object.  [status] is
    the parent status object, named by its identity: neither the class nor
    [__init__] sets that attribute, so it is [None] until the parent
    assigns it, and reading it before raises [AttributeError]. *)
Record BuilderStatus := mkBuilderStatus {
  name : string;
  tags : option (list string);
  description : string;
  workernames : list string;
  currentBuilds : list Build;
  watchers : list nat;
  currentBigState : string;
  status : option nat
}.

(** [BuilderStatus.__init__], with the class default ["offline"]. *)
Definition init (buildername : string) (tags : option (list string))
    (description : string) : BuilderStatus :=
  mkBuilderStatus buildername tags description [] [] [] "offline"%string None.

Definition with_currentBuilds (x : list Build) (b : BuilderStatus) :=
  mkBuilderStatus (name b) (tags b) (description b) (workernames b) x
    (watchers b) (currentBigState b) (status b).

Definition with_watchers (x : list nat) (b : BuilderStatus) :=
  mkBuilderStatus (name b) (tags b) (description b) (workernames b)
    (currentBuilds b) x (currentBigState b) (status b).

Definition with_currentBigState (x : string) (b : BuilderStatus) :=
  mkBuilderStatus (name b) (tags b) (description b) (workernames b)
    (currentBuilds b) (watchers b) x (status b).

(** [builder_status.status = parent], done by the parent. *)
Definition with_status (x : option nat) (b : BuilderStatus) :=
  mkBuilderStatus (name b) (tags b) (description b) (workernames b)
    (currentBuilds b) (watchers b) (currentBigState b) x.

(** The calls that leave the object, in order. *)
Inductive notice :=
| builderChangedState (w : nat) (name state : string)
| buildFinished (w : nat) (name : string) (s : Build) (results : nat)
| log_msg (w : nat)
| log_err
| _builder_subscribe (name : string) (w : nat)
| _builder_unsubscribe (name : string) (w : nat).

Inductive error :=
| AssertFailed              (* a failed [assert] *)
| ValueError                (* [list.remove] of an absent element *)
| AttributeError         (* [AttributeError] of reading [self.status] *)
| WatcherException (w : nat).  (* what a receiver raised *)

(** [l.remove(x)]: without the first element equal to [x]; [None] stands
    for the [ValueError] of an absent [x]. *)
Fixpoint list_remove {A} `{EqDecision A} (x : A) (l : list A) : option (list A) :=
  match l with
  | [] => None
  | y :: l' =>
      if decide (x = y) then Some l' else (y ::.) <$> list_remove x l'
  end.

(** [t or []] *)
Definition or_empty (t : option (list string)) : list string :=
  match t with
  | Some (x :: l) => x :: l
  | _ => []
  end.

Section Watchers.

(** Which receivers raise an exception from [builderChangedState] and from
    [buildFinished].  The receivers and the parent [self.status] are
    objects of other modules: their methods are taken not to call back into
    this builder status, and those of a [self.status] that is there to
    return. *)
Variable state_raises : nat -> bool.
Variable finish_raises : nat -> bool.

(** [cacheMiss(number, **kwargs)]; [val] is [kwargs['val']] when the key is
    there. *)
Definition cacheMiss (n : Z) (val : option (option Build)) (b : BuilderStatus)
    : option Build :=
  match val with
  | Some v => v
  | None => find (fun x => bool_decide (number x = n)) (currentBuilds b)
  end.

Definition getState (b : BuilderStatus) : string * list Build :=
  (currentBigState b, currentBuilds b).

(** [bool(set(self.tags or []) & set(tags))] *)
Definition matchesAnyTag (query : list string) (b : BuilderStatus) : bool :=
  bool_decide
    ((list_to_set (or_empty (tags b)) : gset string) ∩ list_to_set query ≠ ∅).

(** The loop of [publishState] over the watchers. *)
Fixpoint publish_to (ws : list nat) (n state : string) : list notice :=
  match ws with
  | [] => []
  | w :: ws' =>
      builderChangedState w n state ::
      (if state_raises w then [log_msg w; log_err] else []) ++
      publish_to ws' n state
  end.

Definition publishState (target : option nat) (b : BuilderStatus)
    : list notice * (error + unit) :=
  match target with
  | Some t =>
      ([builderChangedState t (name b) (currentBigState b)],
       if state_raises t then inl (WatcherException t) else inr tt)
  | None => (publish_to (watchers b) (name b) (currentBigState b), inr tt)
  end.

Definition setBigState (state : string) (b : BuilderStatus)
    : BuilderStatus * list notice :=
  let needToUpdate := bool_decide (state <> currentBigState b) in
  let b' := with_currentBigState state b in
  if needToUpdate then (b', (publishState None b').1) else (b', []).

Definition subscribe (receiver : nat) (b : BuilderStatus)
    : BuilderStatus * list notice * (error + unit) :=
  let b' := with_watchers (watchers b ++ [receiver]) b in
  match publishState (Some receiver) b' with
  | (t, inl e) => (b', t, inl e)
  | (t, inr _) =>
      match status b' with
      | Some _ => (b', t ++ [_builder_subscribe (name b') receiver], inr tt)
      | None => (b', t, inl AttributeError)
      end
  end.

Definition unsubscribe (receiver : nat) (b : BuilderStatus)
    : BuilderStatus * list notice * (error + unit) :=
  match list_remove receiver (watchers b) with
  | None => (b, [], inl ValueError)
  | Some ws =>
      match status b with
      | Some _ =>
          (with_watchers ws b, [_builder_unsubscribe (name b) receiver], inr tt)
      | None => (with_watchers ws b, [], inl AttributeError)
      end
  end.

(** The loop of [_buildFinished] over the watchers. *)
Fixpoint finish_to (ws : list nat) (n : string) (s : Build) : list notice :=
  match ws with
  | [] => []
  | w :: ws' =>
      buildFinished w n s (getResults s) ::
      (if finish_raises w then [log_msg w; log_err] else []) ++
      finish_to ws' n s
  end.

Definition _buildFinished (s : Build) (b : BuilderStatus)
    : BuilderStatus * list notice * (error + unit) :=
  if bool_decide (s ∈ currentBuilds b) then
    match list_remove s (currentBuilds b) with
    | None => (b, [], inl ValueError)
    | Some builds =>
        (with_currentBuilds builds b, finish_to (watchers b) (name b) s, inr tt)
    end
  else (b, [], inl AssertFailed).

(** The receivers that a list of calls reached, in order. *)
Fixpoint called (t : list notice) : list nat :=
  match t with
  | [] => []
  | builderChangedState w _ _ :: t' => w :: called t'
  | buildFinished w _ _ _ :: t' => w :: called t'
  | _ :: t' => called t'
  end.

End Watchers.

End BuilderStatus.

(** * Properties *)

Section Properties.

Context {Build Kind V : Type} `{EqDecision V}.
Variable kind_truthy : Kind -> bool.
Variable render : Build -> Kind -> option V.
Variable RemoteWorker : bool.
Variable setServiceParent : returned.

Implicit Types (c : @LatentController Kind V) (op : @call Build).

(** The methods at the collaborators of this section. *)
Local Abbreviation step := (exec kind_truthy render RemoteWorker setServiceParent).
Local Abbreviation steps := (run kind_truthy render RemoteWorker setServiceParent).
Local Abbreviation attainable :=
  (reachable kind_truthy render RemoteWorker setServiceParent).
Local Abbreviation worker_start :=
  (ControllableLatentWorker_start_instance render RemoteWorker setServiceParent).
Local Abbreviation worker_stop :=
  (@ControllableLatentWorker_stop_instance Build Kind V).
Local Abbreviation resolve_start :=
  (@LatentController_start_instance Build Kind V RemoteWorker setServiceParent).
Local Abbreviation resolve_stop :=
  (@LatentController_stop_instance Build Kind V).
Local Abbreviation started_kind := (@get_started_kind Build Kind V kind_truthy).
Local Abbreviation compatible := (isCompatibleWithBuild kind_truthy render).
Local Abbreviation connect :=
  (@connect_worker Build Kind V RemoteWorker setServiceParent).

(** Unfolding a method down to the attribute assignments it performs. *)
Ltac crush_method :=
  cbv beta iota zeta delta
    [exec auto_start auto_stop LatentController_start_instance
     LatentController_stop_instance do_start_instance do_stop_instance
     connect_worker disconnect_worker setup_kind get_started_kind
     isCompatibleWithBuild ControllableLatentWorker_start_instance
     ControllableLatentWorker_stop_instance callback new_deferred set_state
     assert detached bind ret raise get modify emit await_slot await_returned
     final events value check_instance]; simpl.

Ltac all_cases := repeat (case_match; simplify_eq/=).

(** ** The store of Deferreds *)

Lemma lookup_new_deferred (l : list (option bool)) :
  (l ++ [None]) !! length l = Some None.
Proof. rewrite lookup_app_r by lia. by rewrite Nat.sub_diag. Qed.

Lemma lookup_fired (l : list (option bool)) d x r :
  l !! d = Some x -> <[d := Some r]> l !! d = Some (Some r).
Proof. intros Hd. apply list_lookup_insert_eq. by eapply lookup_lt_Some. Qed.

(** ** The waiter of an operation in flight *)

Lemma init_waiter (k : Kind) (timeout : nat) :
  waiter_in_place (init (V:=V) k timeout).
Proof. split; discriminate. Qed.

Lemma exec_preserves_waiter op c :
  waiter_in_place c ->
  waiter_in_place (final (step op) c).
Proof.
  destruct c as [t hc rw st asf atf acw adw sd pd k sk skd ds wm].
  unfold waiter_in_place; simpl. intros [Hstart Hstop].
  destruct op, st; crush_method; all_cases;
    (split; intros Hst; try discriminate Hst; eauto using lookup_new_deferred).
Qed.

Lemma run_preserves_waiter (ops : list call) c :
  waiter_in_place c ->
  waiter_in_place (steps ops c).
Proof.
  revert c. induction ops as [|op ops IH]; intros c Hc; [done|].
  apply IH. by apply exec_preserves_waiter.
Qed.

Lemma reachable_waiter c :
  attainable c -> waiter_in_place c.
Proof.
  intros (k & timeout & ops & ->).
  apply run_preserves_waiter, init_waiter.
Qed.

Lemma reachable_exec op c :
  attainable c ->
  attainable (final (step op) c).
Proof.
  intros (k & timeout & ops & ->). exists k, timeout, (ops ++ [op]).
  unfold run. by rewrite foldl_app.
Qed.

(** The Deferred that the worker's methods hand to their caller is the one
    kept in the controller's attribute. *)
Lemma start_hands_out_slot (build : option Build) c d :
  value (worker_start build) c = inr (Pending d) ->
  let c' := final (worker_start build) c in
  state c' = STARTING /\ _start_deferred c' = Some d /\ deferreds c' !! d = Some None.
Proof.
  destruct c as [t hc rw st asf atf acw adw sd pd k sk skd ds wm].
  destruct build, st; crush_method; all_cases; intros ?; simplify_eq;
    eauto using lookup_new_deferred.
Qed.

Lemma stop_hands_out_slot (fast : bool) c d :
  value (worker_stop fast) c = inr (Pending d) ->
  let c' := final (worker_stop fast) c in
  state c' = STOPPING /\ _stop_deferred c' = Some d /\ deferreds c' !! d = Some None.
Proof.
  destruct c as [t hc rw st asf atf acw adw sd pd k sk skd ds wm].
  destruct st; crush_method; all_cases; intros ?; simplify_eq;
    eauto using lookup_new_deferred.
Qed.

(** ** Reading the kind *)

Lemma get_started_kind_awaitable c :
  awaitable kind_truthy c = true ->
  final started_kind c = settled c /\
  value started_kind c = inr (_started_kind (settled c)).
Proof.
  destruct c as [t hc rw st asf atf acw adw sd pd k sk skd ds wm].
  unfold awaitable, settled; simpl.
  destruct skd as [|v|k']; crush_method; [done|done|].
  intros Hk. apply negb_true_iff in Hk. by rewrite Hk.
Qed.

(** Outside [STOPPED], with a true kind object in the slot, the [await] of
    [get_started_kind] raises and the check gives no answer. *)
Lemma isCompatibleWithBuild_not_awaitable (b : Build) c :
  state c <> STOPPED ->
  awaitable kind_truthy c = false ->
  compatible b c = (c, [EvRender b], inl TypeError).
Proof.
  destruct c as [t hc rw st asf atf acw adw sd pd k sk skd ds wm].
  unfold awaitable; simpl. intros Hst Hk.
  destruct st; [done|..]; destruct skd as [|v|k']; try done;
    apply negb_false_iff in Hk; crush_method; by rewrite Hk.
Qed.

(** Outside [STOPPED] the answer is the comparison of the rendered
    request with the kind that [get_started_kind] stores and returns. *)
Lemma isCompatibleWithBuild_running (b : Build) c :
  state c <> STOPPED ->
  awaitable kind_truthy c = true ->
  final (compatible b) c = settled c /\
  value (compatible b) c =
    inr (bool_decide (render b (kind c) = _started_kind (settled c))).
Proof.
  destruct c as [t hc rw st asf atf acw adw sd pd k sk skd ds wm].
  unfold awaitable, settled; simpl. intros Hst Hk.
  destruct st; [done|..]; destruct skd as [|v|k']; crush_method;
    try done; apply negb_true_iff in Hk; by rewrite Hk.
Qed.

(** While an operation stays in flight, no call replaces its Deferred or
    fires it. *)
Lemma waiter_stable op c :
  let c' := final (step op) c in
  (state c = STARTING -> state c' = STARTING ->
   _start_deferred c' = _start_deferred c /\
   forall d, _start_deferred c = Some d -> deferreds c' !! d = deferreds c !! d) /\
  (state c = STOPPING -> state c' = STOPPING ->
   _stop_deferred c' = _stop_deferred c /\
   forall d, _stop_deferred c = Some d -> deferreds c' !! d = deferreds c !! d).
Proof.
  destruct c as [t hc rw st asf atf acw adw sd pd k sk skd ds wm].
  destruct op, st; crush_method; all_cases; split; intros; simplify_eq; done.
Qed.

(** ** The state machine *)

(** C1. Every assignment to [self.state] made by any call follows one of
    the four edges STOPPED-STARTING, STARTING-STARTED, STARTED-STOPPING and
    STOPPING-STOPPED, and the assignments of one call lead from the state
    before the call to the state after it.  The worker's [start_instance]
    assigns only when the state is STOPPED and then moves it to STARTING
    (and on to STARTED under [auto_start_flag]); resolving a start assigns
    only when the state is STARTING and moves it to STARTED; the worker's
    [stop_instance] assigns only when the state is STARTED and moves it to
    STOPPING (and on to STOPPED under [auto_stop_flag]); resolving a stop
    assigns only when the state is STOPPING and moves it to STOPPED. *)
Theorem lifecycle_edges :
  (forall op c,
     let t := transitions (events (step op) c) in
     follow (state c) t = Some (state (final (step op) c)) /\
     forallb (fun e => edge e.1 e.2) t = true) /\
  (forall build c,
     transitions (events (worker_start build) c) =
       if bool_decide (state c = STOPPED)
       then (STOPPED, STARTING) ::
            (if auto_start_flag c then [(STARTING, STARTED)] else [])
       else []) /\
  (forall result c,
     transitions (events (resolve_start result) c) =
       if bool_decide (state c = STARTING) then [(STARTING, STARTED)] else []) /\
  (forall fast c,
     transitions (events (worker_stop fast) c) =
       if bool_decide (state c = STARTED)
       then (STARTED, STOPPING) ::
            (if auto_stop_flag c then [(STOPPING, STOPPED)] else [])
       else []) /\
  (forall result c,
     transitions (events (resolve_stop result) c) =
       if bool_decide (state c = STOPPING) then [(STOPPING, STOPPED)] else []).
Proof.
  repeat split.
  - destruct c as [t' hc rw st asf atf acw adw sd pd k sk skd ds wm].
    destruct op, st; crush_method; all_cases; reflexivity.
  - destruct c as [t' hc rw st asf atf acw adw sd pd k sk skd ds wm].
    destruct op, st; crush_method; all_cases; reflexivity.
  - intros build c.
    destruct c as [t' hc rw st asf atf acw adw sd pd k sk skd ds wm].
    destruct build, st; crush_method; all_cases; reflexivity.
  - intros result c.
    destruct c as [t' hc rw st asf atf acw adw sd pd k sk skd ds wm].
    destruct st; crush_method; all_cases; reflexivity.
  - intros fast c.
    destruct c as [t' hc rw st asf atf acw adw sd pd k sk skd ds wm].
    destruct st; crush_method; all_cases; reflexivity.
  - intros result c.
    destruct c as [t' hc rw st asf atf acw adw sd pd k sk skd ds wm].
    destruct st; crush_method; all_cases; reflexivity.
Qed.

(** ** Resolving a start or a stop *)

(** C2, as the code has it.  Resolving a start with a failure while the
    controller is STARTING moves the state to STARTED, exactly as a success
    does: the stored kind and the kind slot are left as they were, no worker
    session is attached, and the failure is delivered to the Deferred of
    that start, which then leaves the controller's attribute. *)
Theorem failed_start_resolves_to_started c :
  attainable c ->
  state c = STARTING ->
  exists d,
    _start_deferred c = Some d /\
    deferreds c !! d = Some None /\
    events (resolve_start false) c = [EvState STARTING STARTED; EvCallback d false] /\
    value (resolve_start false) c = inr tt /\
    let c' := final (resolve_start false) c in
    state c' = STARTED /\
    _started_kind c' = _started_kind c /\
    _started_kind_deferred c' = _started_kind_deferred c /\
    remote_worker c' = remote_worker c /\
    _start_deferred c' = None /\
    deferreds c' !! d = Some (Some false).
Proof.
  intros Hr Hst. destruct (reachable_waiter c Hr) as [Hw _].
  destruct (Hw Hst) as (d & Hd & Hl). exists d.
  destruct c as [t hc rw st asf atf acw adw sd pd k sk skd ds wm].
  simpl in *; subst. crush_method. rewrite andb_false_r; simpl.
  rewrite Hl; simpl. repeat split; eauto using lookup_fired.
Qed.

(** C3. Resolving a stop while the controller is STOPPING, with a success
    or with a failure alike, returns normally, leaves the state STOPPED and
    the stored kind [None], and delivers the result to the Deferred of
    that stop. *)
Theorem stop_resolves_to_stopped (result : bool) c :
  attainable c ->
  state c = STOPPING ->
  exists d,
    _stop_deferred c = Some d /\
    deferreds c !! d = Some None /\
    value (resolve_stop result) c = inr tt /\
    last (events (resolve_stop result) c) = Some (EvCallback d result) /\
    transitions (events (resolve_stop result) c) = [(STOPPING, STOPPED)] /\
    let c' := final (resolve_stop result) c in
    state c' = STOPPED /\
    _started_kind c' = None /\
    _stop_deferred c' = None /\
    deferreds c' !! d = Some (Some result).
Proof.
  intros Hr Hst. destruct (reachable_waiter c Hr) as [_ Hw].
  destruct (Hw Hst) as (d & Hd & Hl). exists d.
  destruct c as [t hc rw st asf atf acw adw sd pd k sk skd ds wm].
  simpl in *; subst. crush_method.
  destruct adw, rw; simpl; rewrite Hl; simpl;
    repeat split; eauto using lookup_fired.
Qed.

(** ** Compatibility with a build *)

(** C4, and where the code departs from it.  In state STOPPED the check
    answers [True] whatever the build requests, without touching the
    controller.  In states STARTING and STARTED it has [get_started_kind]
    bring the stored kind up to date and answers [True] exactly when the
    kind rendered for the request equals that current kind; both may be
    [None].  That is so whenever the kind slot can be awaited.  When the
    slot holds the configured kind object itself, put there by the [else]
    branch of [setup_kind] for a start without a build, and that object is
    true, the [await] in [get_started_kind] raises [TypeError]: the check
    gives no answer and leaves the controller as it was. *)
Theorem compatibility_resolution (b : Build) c :
  (state c = STOPPED -> compatible b c = (c, [], inr true)) /\
  (state c = STARTING \/ state c = STARTED ->
   awaitable kind_truthy c = true ->
   let c' := final (compatible b) c in
   c' = settled c /\
   value started_kind c = inr (_started_kind c') /\
   exists answer,
     value (compatible b) c = inr answer /\
     (answer = true <-> render b (kind c) = _started_kind c')) /\
  (state c = STARTING \/ state c = STARTED ->
   awaitable kind_truthy c = false ->
   compatible b c = (c, [EvRender b], inl TypeError)).
Proof.
  split; [|split].
  - intros Hst. destruct c; simpl in *; subst. reflexivity.
  - intros Hst Hk.
    destruct (isCompatibleWithBuild_running b c) as [Hfinal Hvalue]; [|done|].
    { destruct Hst as [-> | ->]; discriminate. }
    simpl. rewrite Hfinal, Hvalue. split; [done|].
    split; [by apply get_started_kind_awaitable|].
    eexists; split; [done|]. apply bool_decide_eq_true.
  - intros Hst Hk. apply isCompatibleWithBuild_not_awaitable; [|done].
    destruct Hst as [-> | ->]; discriminate.
Qed.

(** C5, as the code has it.  State STOPPING is treated like STARTING and
    STARTED: with a kind slot that can be awaited, the check answers [True]
    exactly when the kind rendered for the request equals the current
    kind, which is cleared only when the stop resolves. *)
Theorem compatibility_while_stopping (b : Build) c :
  state c = STOPPING ->
  awaitable kind_truthy c = true ->
  let c' := final (compatible b) c in
  c' = settled c /\
  exists answer,
    value (compatible b) c = inr answer /\
    (answer = true <-> render b (kind c) = _started_kind c').
Proof.
  intros Hst Hk.
  destruct (isCompatibleWithBuild_running b c) as [Hfinal Hvalue]; [|done|].
  { rewrite Hst. discriminate. }
  simpl. rewrite Hfinal, Hvalue. split; [done|].
  eexists; split; [done|]. apply bool_decide_eq_true.
Qed.

(** C6, as the code has it.  A request whose kind renders to [None], made
    while the worker is STARTED with a kind slot that can be awaited, is
    judged compatible exactly when the current kind is [None] as well. *)
Theorem absent_request_needs_absent_kind (b : Build) c :
  state c = STARTED ->
  awaitable kind_truthy c = true ->
  render b (kind c) = None ->
  exists answer,
    value (compatible b) c = inr answer /\
    (answer = true <-> _started_kind (final (compatible b) c) = None).
Proof.
  intros Hst Hk Hreq.
  destruct (isCompatibleWithBuild_running b c) as [Hfinal Hvalue]; [|done|].
  { rewrite Hst. discriminate. }
  rewrite Hfinal, Hvalue.
  eexists; split; [done|]. rewrite Hreq, bool_decide_eq_true. naive_solver.
Qed.

(** ** The stored kind *)



(** C8. Once [setup_kind] has recorded the rendering of the kind for a
    build (directly or at the head of the worker's [start_instance]), the
    first [get_started_kind] awaits it, stores its value and empties the
    slot; every later call returns that same value, awaits nothing and
    leaves the controller as it is. *)
Theorem started_kind_evaluated_once (b : Build) c :
  let c0 := final (setup_kind render (Some b)) c in
  let c1 := final started_kind c0 in
  _started_kind_deferred c0 = SlotDeferred (render b (kind c)) /\
  _started_kind_deferred (final (worker_start (Some b)) c) =
    SlotDeferred (render b (kind c)) /\
  started_kind c0 = (c1, [EvAwaitKind], inr (render b (kind c))) /\
  _started_kind c1 = render b (kind c) /\
  _started_kind_deferred c1 = SlotNone /\
  forall n,
    Nat.iter n (final started_kind) c1 = c1 /\
    started_kind (Nat.iter n (final started_kind) c1) =
      (c1, [], inr (render b (kind c))).
Proof.
  destruct c as [t hc rw st asf atf acw adw sd pd k sk skd ds wm].
  repeat split.
  - destruct st; crush_method; all_cases; reflexivity.
  - induction n as [|n IH]; [done|]. simpl. by rewrite IH.
  - assert (Hn : Nat.iter n (final started_kind)
                   (final started_kind
                      (final (setup_kind render (Some b))
                         (mkController t hc rw st asf atf acw adw sd pd k sk skd ds wm)))
                 = final started_kind
                      (final (setup_kind render (Some b))
                         (mkController t hc rw st asf atf acw adw sd pd k sk skd ds wm))).
    { induction n as [|n IH]; [done|]. simpl. by rewrite IH. }
    rewrite Hn. reflexivity.
Qed.

(** ** The worker session and the health probe *)

(** C9. With a worker session attached, [connect_worker] returns at once:
    no directory is made, no second session is created or attached and no
    attribute changes.  Hence a [connect_worker] that follows a successful
    one does nothing. *)
Theorem connect_worker_idempotent c :
  (forall w, remote_worker c = Some w -> connect c = (c, [], inr tt)) /\
  (value connect c = inr tt ->
   connect (final connect c) = (final connect c, [], inr tt)).
Proof.
  destruct c as [t hc rw st asf atf acw adw sd pd k sk skd ds wm].
  split.
  - intros w Hw. simpl in *; subst. reflexivity.
  - crush_method. destruct rw, RemoteWorker, setServiceParent; simpl; done.
Qed.

(** C10. [check_instance] reads the crash flag and nothing else: in every
    lifecycle state it reports healthy exactly when [has_crashed] is false,
    and the reason it gives is the empty string, also when it reports
    unhealthy. *)
Theorem check_instance_reads_crash_flag c :
  (check_instance c).1 = negb (has_crashed c) /\
  (check_instance c).2 = EmptyString /\
  (forall st, check_instance (with_state st c) = check_instance c) /\
  (forall crashed,
     check_instance (with_has_crashed crashed c) = (negb crashed, EmptyString)).
Proof. repeat split. Qed.

(** * Further properties of the controller and its worker *)

Local Abbreviation detach := (@disconnect_worker Build Kind V).
Local Abbreviation set_auto_start :=
  (@auto_start Build Kind V RemoteWorker setServiceParent).
Local Abbreviation set_auto_stop := (@auto_stop Build Kind V).
Local Abbreviation finish_start :=
  (@do_start_instance Build Kind V RemoteWorker setServiceParent).
Local Abbreviation finish_stop := (@do_stop_instance Build Kind V).
Local Abbreviation record_kind := (setup_kind render).
Local Abbreviation history :=
  (run_events kind_truthy render RemoteWorker setServiceParent).

(** ** The Deferreds of the operations in flight *)

(** X1. In every controller that a sequence of calls can bring about, a
    start in flight has its Deferred in [_start_deferred] and a stop in
    flight has its Deferred in [_stop_deferred], and that Deferred has not
    fired. *)
Theorem waiter_invariant c :
  reachable kind_truthy render RemoteWorker setServiceParent c ->
  (state c = STARTING ->
   exists d, _start_deferred c = Some d /\ deferreds c !! d = Some None) /\
  (state c = STOPPING ->
   exists d, _stop_deferred c = Some d /\ deferreds c !! d = Some None).
Proof. apply reachable_waiter. Qed.

(** X2. A call that finds the controller STARTING and leaves it STARTING
    neither replaces nor fires the Deferred of the start; likewise for
    STOPPING and the Deferred of the stop. *)
Theorem in_flight_deferred_untouched op c :
  let c' := final (step op) c in
  (state c = STARTING -> state c' = STARTING ->
   _start_deferred c' = _start_deferred c /\
   forall d, _start_deferred c = Some d -> deferreds c' !! d = deferreds c !! d) /\
  (state c = STOPPING -> state c' = STOPPING ->
   _stop_deferred c' = _stop_deferred c /\
   forall d, _stop_deferred c = Some d -> deferreds c' !! d = deferreds c !! d).
Proof. apply waiter_stable. Qed.

(** ** A start or a stop and its resolution *)

(** ** One call at a time *)

(** The worker's [start_instance] when it has to wait for the start. *)
Lemma worker_start_waits (build : option Build) c :
  state c = STOPPED ->
  auto_start_flag c = false ->
  worker_start build c =
    (with_start_deferred (Some (length (deferreds c)))
       (with_deferreds (deferreds c ++ [None])
          (with_state STARTING (final (record_kind build) c))),
     events (record_kind build) c ++ [EvState STOPPED STARTING],
     inr (Pending (length (deferreds c)))).
Proof.
  destruct c as [t hc rw st asf atf acw adw sd pd k sk skd ds wm].
  simpl. intros -> ->. destruct build; reflexivity.
Qed.

(** The worker's [stop_instance] when it has to wait for the stop. *)
Lemma worker_stop_waits (fast : bool) c :
  state c = STARTED ->
  auto_stop_flag c = false ->
  worker_stop fast c =
    (with_stop_deferred (Some (length (deferreds c)))
       (with_deferreds (deferreds c ++ [None]) (with_state STOPPING c)),
     [EvState STARTED STOPPING],
     inr (Pending (length (deferreds c)))).
Proof.
  destruct c as [t hc rw st asf atf acw adw sd pd k sk skd ds wm].
  simpl. intros -> ->. reflexivity.
Qed.

(** Resolving a start whose Deferred is in place: the state becomes
    STARTED and the session is assigned in any case; the Deferred fires
    unless the making of a new session raises. *)
Lemma resolve_start_outcome (result : bool) c d :
  state c = STARTING ->
  _start_deferred c = Some d ->
  deferreds c !! d = Some None ->
  let c' := final (resolve_start result) c in
  state c' = STARTED /\
  _started_kind c' = _started_kind c /\
  remote_worker c' =
    (if attaches result c && RemoteWorker
     then Some (workers_made c) else remote_worker c) /\
  match (if attaches result c
         then attach_failure RemoteWorker setServiceParent else None) with
  | None =>
      value (resolve_start result) c = inr tt /\
      _start_deferred c' = None /\
      deferreds c' = <[d := Some result]> (deferreds c)
  | Some e =>
      value (resolve_start result) c = inl e /\
      _start_deferred c' = Some d /\
      deferreds c' = deferreds c /\
      forall r, resolve_start r c' = (c', [], inl AssertionError)
  end.
Proof.
  destruct c as [t hc rw st asf atf acw adw sd pd k sk skd ds wm].
  simpl. intros -> -> Hl. unfold attaches, attach_failure; simpl.
  destruct result, acw, rw, RemoteWorker, setServiceParent;
    crush_method; rewrite ?Hl; done.
Qed.

(** Resolving a stop whose Deferred is in place. *)
Lemma resolve_stop_fires (result : bool) c d :
  state c = STOPPING ->
  _stop_deferred c = Some d ->
  deferreds c !! d = Some None ->
  let c' := final (resolve_stop result) c in
  value (resolve_stop result) c = inr tt /\
  state c' = STOPPED /\
  _started_kind c' = None /\
  _stop_deferred c' = None /\
  deferreds c' = <[d := Some result]> (deferreds c).
Proof.
  destruct c as [t hc rw st asf atf acw adw sd pd k sk skd ds wm].
  simpl. intros -> -> Hl.
  destruct adw, rw; crush_method; rewrite Hl; done.
Qed.

Lemma fire_new_deferred (l : list (option bool)) r :
  <[length l := Some r]> (l ++ [None]) = l ++ [Some r].
Proof. rewrite insert_app_r_alt by lia. by rewrite Nat.sub_diag. Qed.

(** X4. With [auto_start_flag] off, the worker's [start_instance] on a
    STOPPED controller hands a fresh Deferred to its caller and leaves the
    controller STARTING; resolving the start then leaves the controller
    STARTED and fires exactly that Deferred with the result given, unless
    the start succeeded and the making of the session raises ([SkipTest]
    without the worker package, [TypeError] when what [setServiceParent]
    returns cannot be awaited): then the exception leaves the resolution,
    and the Deferred stays in its attribute and never fires. *)
Theorem start_then_resolve_delivers (build : option Build) (result : bool) c :
  state c = STOPPED ->
  auto_start_flag c = false ->
  let d := length (deferreds c) in
  let c1 := final (worker_start build) c in
  let c2 := final (resolve_start result) c1 in
  value (worker_start build) c = inr (Pending d) /\
  state c1 = STARTING /\
  deferreds c1 !! d = Some None /\
  state c2 = STARTED /\
  match (if attaches result c
         then attach_failure RemoteWorker setServiceParent else None) with
  | None =>
      value (resolve_start result) c1 = inr tt /\
      _start_deferred c2 = None /\
      deferreds c2 = deferreds c ++ [Some result]
  | Some e =>
      value (resolve_start result) c1 = inl e /\
      _start_deferred c2 = Some d /\
      deferreds c2 = deferreds c ++ [None] /\
      forall r, resolve_start r c2 = (c2, [], inl AssertionError)
  end.
Proof.
  intros Hst Hauto d c1 c2.
  pose proof (worker_start_waits build c Hst Hauto) as Hstart.
  assert (Hc1 : c1 = with_start_deferred (Some d)
                       (with_deferreds (deferreds c ++ [None])
                          (with_state STARTING (final (record_kind build) c)))).
  { unfold c1, final at 1. by rewrite Hstart. }
  assert (Hl : deferreds c1 !! d = Some None).
  { rewrite Hc1. apply lookup_new_deferred. }
  assert (Ha : attaches result c1 = attaches result c).
  { rewrite Hc1. by destruct build, c. }
  destruct (resolve_start_outcome result c1 d) as (Hs & _ & _ & Hout);
    [by rewrite Hc1..|done|].
  rewrite Ha in Hout.
  repeat split; try done.
  - unfold value. by rewrite Hstart.
  - by rewrite Hc1.
  - fold c2 in Hout.
    destruct (if attaches result c
              then attach_failure RemoteWorker setServiceParent else None)
      as [e|].
    + destruct Hout as (Hv & Hsd & Hds & Hagain).
      repeat split; try done. rewrite Hds, Hc1. done.
    + destruct Hout as (Hv & Hsd & Hds).
      repeat split; try done. rewrite Hds, Hc1. apply fire_new_deferred.
Qed.

(** X5. With [auto_stop_flag] off, the worker's [stop_instance] on a
    STARTED controller hands a fresh Deferred to its caller and leaves the
    controller STOPPING; resolving the stop then fires exactly that Deferred
    with the result given and leaves the controller STOPPED, without a
    stored kind. *)
Theorem stop_then_resolve_delivers (fast result : bool) c :
  state c = STARTED ->
  auto_stop_flag c = false ->
  let d := length (deferreds c) in
  let c1 := final (worker_stop fast) c in
  let c2 := final (resolve_stop result) c1 in
  value (worker_stop fast) c = inr (Pending d) /\
  state c1 = STOPPING /\
  deferreds c1 !! d = Some None /\
  value (resolve_stop result) c1 = inr tt /\
  state c2 = STOPPED /\
  _started_kind c2 = None /\
  _stop_deferred c2 = None /\
  deferreds c2 = deferreds c ++ [Some result].
Proof.
  intros Hst Hauto d c1 c2.
  pose proof (worker_stop_waits fast c Hst Hauto) as Hstop.
  assert (Hc1 : c1 = with_stop_deferred (Some d)
                       (with_deferreds (deferreds c ++ [None])
                          (with_state STOPPING c))).
  { unfold c1, final. by rewrite Hstop. }
  assert (Hl : deferreds c1 !! d = Some None).
  { rewrite Hc1. apply lookup_new_deferred. }
  destruct (resolve_stop_fires result c1 d) as (Hv & Hs & Hk & Hsd & Hds);
    [by rewrite Hc1..|done|].
  repeat split; try done.
  - unfold value. by rewrite Hstop.
  - by rewrite Hc1.
  - unfold c2. rewrite Hds, Hc1. apply fire_new_deferred.
Qed.

(** X6. With [auto_start_flag] on, the worker's [start_instance] on a
    STOPPED controller completes at once: it answers [True], the controller
    is STARTED, no Deferred is created or stored, and a session is attached
    when [auto_connect_worker] is on and the worker package is installed.
    A failure of [connect_worker] ([SkipTest] without the package,
    [TypeError] at the [await] of [setServiceParent]) is not reported: the
    answer is still [True]. *)
Theorem auto_start_completes_at_once (build : option Build) c :
  state c = STOPPED ->
  auto_start_flag c = true ->
  let c' := final (worker_start build) c in
  value (worker_start build) c = inr (Resolved true) /\
  state c' = STARTED /\
  deferreds c' = deferreds c /\
  _start_deferred c' = _start_deferred c /\
  remote_worker c' =
    match remote_worker c with
    | Some w => Some w
    | None =>
        if auto_connect_worker c && RemoteWorker
        then Some (workers_made c) else None
    end.
Proof.
  intros Hst Hauto.
  destruct c as [t hc rw st asf atf acw adw sd pd k sk skd ds wm].
  simpl in *; subst.
  destruct build, acw, rw, RemoteWorker, setServiceParent; crush_method; done.
Qed.

(** X7. With [auto_stop_flag] on, the worker's [stop_instance] on a STARTED
    controller completes at once: it answers [True], the controller is
    STOPPED without a stored kind, no Deferred is created or stored, and
    the session is detached when [auto_disconnect_worker] is on. *)
Theorem auto_stop_completes_at_once (fast : bool) c :
  state c = STARTED ->
  auto_stop_flag c = true ->
  let c' := final (worker_stop fast) c in
  value (worker_stop fast) c = inr (Resolved true) /\
  state c' = STOPPED /\
  _started_kind c' = None /\
  deferreds c' = deferreds c /\
  _stop_deferred c' = _stop_deferred c /\
  remote_worker c' = (if auto_disconnect_worker c then None else remote_worker c).
Proof.
  intros Hst Hauto.
  destruct c as [t hc rw st asf atf acw adw sd pd k sk skd ds wm].
  simpl in *; subst.
  destruct adw, rw; crush_method; done.
Qed.

(** X8. While [auto_start_flag] is on no start is ever left in flight, and
    while [auto_stop_flag] is on no stop is: in every controller that a
    sequence of calls can bring about, the first flag excludes state
    STARTING and the second excludes state STOPPING. *)
Theorem auto_flags_leave_nothing_in_flight c :
  reachable kind_truthy render RemoteWorker setServiceParent c ->
  (auto_start_flag c = true -> state c <> STARTING) /\
  (auto_stop_flag c = true -> state c <> STOPPING).
Proof.
  intros (k & timeout & ops & ->).
  assert (Hinit : (auto_start_flag (init (V:=V) k timeout) = true ->
                   state (init (V:=V) k timeout) <> STARTING) /\
                  (auto_stop_flag (init (V:=V) k timeout) = true ->
                   state (init (V:=V) k timeout) <> STOPPING)) by done.
  revert Hinit. generalize (init (V:=V) k timeout).
  induction ops as [|op ops IH]; intros c Hc; [done|].
  simpl. apply IH. clear IH.
  destruct c as [t hc rw st asf atf acw adw sd pd k' sk skd ds wm].
  simpl in Hc. destruct Hc as [Hstart Hstop].
  destruct op, st; crush_method; all_cases; split; intros; try done;
    naive_solver.
Qed.

(** ** Calls in the wrong state *)

(** X9. Resolving a start outside STARTING, resolving a stop outside
    STOPPING and the worker's [stop_instance] outside STARTED fail on their
    [assert] before anything is assigned: the controller is unchanged, no
    Deferred is created or fired and nothing is called. *)
Theorem rejected_call_changes_nothing (result fast : bool) c :
  (state c <> STARTING ->
   @LatentController_start_instance Build Kind V RemoteWorker setServiceParent
     result c
   = (c, [], inl AssertionError)) /\
  (state c <> STOPPING ->
   @LatentController_stop_instance Build Kind V result c
   = (c, [], inl AssertionError)) /\
  (state c <> STARTED ->
   @ControllableLatentWorker_stop_instance Build Kind V fast c
   = (c, [], inl AssertionError)).
Proof.
  destruct c as [t hc rw st asf atf acw adw sd pd k sk skd ds wm].
  repeat split; simpl; intros Hst; destruct st; done.
Qed.

(** X10. The worker's [start_instance] records the kind before it checks
    the state: outside STOPPED it fails on its [assert] with the state, the
    stored kind and the Deferreds unchanged, but the kind slot already holds
    the rendering for the new build (or the kind object, without a build). *)
Theorem rejected_start_overwrites_kind_slot (build : option Build) c :
  state c <> STOPPED ->
  let c' := final (worker_start build) c in
  value (worker_start build) c = inl AssertionError /\
  c' = final (record_kind build) c /\
  state c' = state c /\
  _started_kind c' = _started_kind c /\
  deferreds c' = deferreds c /\
  _started_kind_deferred c' =
    match build with
    | Some b => SlotDeferred (render b (kind c))
    | None => SlotRaw (kind c)
    end.
Proof.
  destruct c as [t hc rw st asf atf acw adw sd pd k sk skd ds wm].
  simpl; intros Hst. destruct build, st; done.
Qed.

(** ** Resolving a start with success *)

(** X11. In a controller that a sequence of calls can bring about and that
    is STARTING, resolving the start with [True] leaves the state STARTED
    and the stored kind as it was, and leaves a session in [remote_worker]
    when there was one, or when [auto_connect_worker] is on and the worker
    package is installed.  It returns normally and fires the Deferred of
    the start with [True], unless a new session had to be made and that
    making raised ([SkipTest] without the package, [TypeError] when what
    [setServiceParent] returns cannot be awaited): then the exception
    leaves the resolution, the Deferred stays in its attribute without
    having fired, and no later resolution can fire it. *)
Theorem successful_start_resolution c :
  attainable c ->
  state c = STARTING ->
  exists d,
    _start_deferred c = Some d /\
    let c' := final (resolve_start true) c in
    state c' = STARTED /\
    _started_kind c' = _started_kind c /\
    remote_worker c' =
      match remote_worker c with
      | Some w => Some w
      | None =>
          if auto_connect_worker c && RemoteWorker
          then Some (workers_made c) else None
      end /\
    match (if attaches true c
           then attach_failure RemoteWorker setServiceParent else None) with
    | None =>
        value (resolve_start true) c = inr tt /\
        _start_deferred c' = None /\
        deferreds c' !! d = Some (Some true)
    | Some e =>
        value (resolve_start true) c = inl e /\
        _start_deferred c' = Some d /\
        deferreds c' !! d = Some None /\
        forall r, resolve_start r c' = (c', [], inl AssertionError)
    end.
Proof.
  intros Hr Hst. destruct (reachable_waiter c Hr) as [Hw _].
  destruct (Hw Hst) as (d & Hd & Hl). exists d. split; [done|].
  destruct (resolve_start_outcome true c d Hst Hd Hl) as (Hs & Hk & Hrw & Hout).
  cbv zeta. repeat split; try done.
  - rewrite Hrw. unfold attaches.
    destruct (remote_worker c), (auto_connect_worker c), RemoteWorker; done.
  - destruct (if attaches true c
              then attach_failure RemoteWorker setServiceParent else None)
      as [e|].
    + destruct Hout as (Hv & Hsd & Hds & Hagain).
      repeat split; try done. by rewrite Hds.
    + destruct Hout as (Hv & Hsd & Hds).
      repeat split; try done. rewrite Hds. by eapply lookup_fired.
Qed.

(** X12. Without the worker package, resolving a start with [True] on a
    STARTING controller that connects automatically and has no session
    raises [SkipTest] after the state has become STARTED: the Deferred of
    the start stays in its attribute and is not fired, and since the
    controller is no longer STARTING no later resolution can fire it. *)
Theorem start_without_worker_package (result : bool) c :
  RemoteWorker = false ->
  state c = STARTING ->
  auto_connect_worker c = true ->
  remote_worker c = None ->
  let c' := final (resolve_start true) c in
  value (resolve_start true) c = inl SkipTest /\
  state c' = STARTED /\
  _start_deferred c' = _start_deferred c /\
  deferreds c' = deferreds c /\
  resolve_start result c' = (c', [], inl AssertionError).
Proof.
  intros HR Hst Hacw Hrw.
  destruct c as [t hc rw st asf atf acw adw sd pd k sk skd ds wm].
  simpl in *; subst. done.
Qed.

(** ** More on the kind *)

(** X13. [isCompatibleWithBuild] can be asked again: a second call for the
    same build gives the same answer (or fails in the same way) and leaves
    the controller as the first call left it.  The check never changes the
    state, the Deferreds or the session. *)
Theorem compatibility_check_idempotent (b : Build) c :
  let c1 := final (compatible b) c in
  value (compatible b) c1 = value (compatible b) c /\
  final (compatible b) c1 = c1 /\
  state c1 = state c /\
  deferreds c1 = deferreds c /\
  _start_deferred c1 = _start_deferred c /\
  _stop_deferred c1 = _stop_deferred c /\
  remote_worker c1 = remote_worker c.
Proof.
  destruct c as [t hc rw st asf atf acw adw sd pd k sk skd ds wm].
  destruct st, skd as [|v|k']; crush_method; try done;
    destruct (kind_truthy k') eqn:Hk; simpl; rewrite ?Hk; done.
Qed.

(** X14. When [setup_kind] is called without a build, the slot holds the
    configured kind itself.  If that object is false ([None], an empty
    string) [get_started_kind] skips it and returns the kind stored before;
    if it is true, every [get_started_kind] raises [TypeError] and leaves
    the slot in place, and so does the compatibility check outside
    STOPPED. *)
Theorem kind_without_build (b : Build) c :
  let c0 := final (record_kind None) c in
  started_kind c0 =
    (c0, [], if kind_truthy (kind c) then inl TypeError
             else inr (_started_kind c)) /\
  value (compatible b) c0 =
    if bool_decide (state c = STOPPED) then inr true
    else if kind_truthy (kind c) then inl TypeError
    else inr (bool_decide (render b (kind c) = _started_kind c)).
Proof.
  destruct c as [t hc rw st asf atf acw adw sd pd k sk skd ds wm].
  destruct st; crush_method; destruct (kind_truthy k); done.
Qed.

(** X15. A stop does not empty the kind slot.  When a stop is resolved
    while a rendering is still waiting there, the stored kind is [None]
    afterwards, yet the next [get_started_kind] returns the value of that
    rendering and stores it, with the controller STOPPED. *)
Theorem stale_rendering_survives_stop (result : bool) (v : option V) c :
  state c = STOPPING ->
  _started_kind_deferred c = SlotDeferred v ->
  let c1 := final (resolve_stop result) c in
  let c2 := final started_kind c1 in
  state c1 = STOPPED /\
  _started_kind c1 = None /\
  _started_kind_deferred c1 = SlotDeferred v /\
  value started_kind c1 = inr v /\
  state c2 = STOPPED /\
  _started_kind c2 = v.
Proof.
  intros Hst Hslot.
  destruct c as [t hc rw st asf atf acw adw sd pd k sk skd ds wm].
  simpl in *; subst. crush_method. all_cases; done.
Qed.

(** ** What no call changes *)

(** X16. No call changes the configured kind or the timeout, and the crash
    flag changes only when it is assigned; so whatever happens to the
    lifecycle, [check_instance] keeps its answer until [has_crashed] is
    set. *)
Theorem configuration_never_changes op c :
  let c' := final (step op) c in
  kind c' = kind c /\
  build_wait_timeout c' = build_wait_timeout c /\
  check_instance c' =
    match op with
    | SetHasCrashed crashed => (negb crashed, EmptyString)
    | _ => check_instance c
    end.
Proof.
  destruct c as [t hc rw st asf atf acw adw sd pd k sk skd ds wm].
  destruct op, st; crush_method; all_cases; done.
Qed.

(** X17. On a controller that a sequence of calls can bring about,
    resolving never finds its Deferred missing or already fired: resolving
    a stop succeeds exactly in state STOPPING and otherwise fails on the
    [assert], and resolving a start raises neither [AttributeError] nor
    [AlreadyCalledError]. *)
Theorem resolution_finds_its_deferred (result : bool) c :
  attainable c ->
  value (resolve_stop result) c =
    (if bool_decide (state c = STOPPING) then inr tt else inl AssertionError) /\
  value (resolve_start result) c <> inl AttributeError /\
  value (resolve_start result) c <> inl AlreadyCalledError.
Proof.
  intros Hr. destruct (reachable_waiter c Hr) as [Hstart Hstop].
  destruct c as [t hc rw st asf atf acw adw sd pd k sk skd ds wm].
  simpl in *. destruct st.
  - crush_method. done.
  - destruct (Hstart eq_refl) as (d & -> & Hl).
    crush_method. all_cases; done.
  - crush_method. done.
  - destruct (Hstop eq_refl) as (d & -> & Hl).
    crush_method. all_cases; done.
Qed.

(** ** Round trips *)

(** X18. Attaching and detaching a session undo each other: on a
    controller without a session (the worker package being installed)
    [connect_worker] makes a work directory and stores a new session in
    [remote_worker] before it awaits [setServiceParent]; so the session is
    there whether that [await] completes or raises [TypeError].  In both
    cases [disconnect_worker] then disowns that same session and leaves
    every attribute as it was before the two calls; only the count of
    sessions made so far has grown. *)
Theorem connect_disconnect_round_trip c :
  RemoteWorker = true ->
  remote_worker c = None ->
  let w := workers_made c in
  let c1 := final connect c in
  connect c =
    (c1, [EvMkWorkdir; EvAttach w],
     match setServiceParent with
     | Awaitable => inr tt
     | NotAwaitable => inl TypeError
     end) /\
  remote_worker c1 = Some w /\
  detach c1 =
    (with_workers_made (S w) c, [EvSever; EvDisconnectMaster; EvDisown w], inr tt).
Proof.
  intros HR Hrw.
  destruct c as [t hc rw st asf atf acw adw sd pd k sk skd ds wm].
  simpl in *; subst. by destruct setServiceParent.
Qed.

(** ** Whole executions *)

Lemma transitions_app (t1 t2 : list (@event Build)) :
  transitions (t1 ++ t2) = transitions t1 ++ transitions t2.
Proof.
  induction t1 as [|e t1 IH]; [done|].
  destruct e; simpl; by rewrite IH.
Qed.

Lemma follow_app (s : States) (l1 l2 : list (States * States)) :
  follow s (l1 ++ l2) = follow s l1 ≫= λ s', follow s' l2.
Proof.
  revert s. induction l1 as [|[a b] l1 IH]; intros s; [done|].
  simpl. case_bool_decide; [apply IH|done].
Qed.

Lemma follow_edges_iter (s s' : States) (l : list (States * States)) :
  follow s l = Some s' ->
  forallb (fun e => edge e.1 e.2) l = true ->
  s' = Nat.iter (length l) next_state s.
Proof.
  revert s. induction l as [|[a b] l IH]; intros s; simpl.
  - by intros [= ->].
  - case_bool_decide as Ha; [subst a|done].
    intros Hf [He Hl]%andb_true_iff.
    assert (b = next_state s) as -> by (by destruct s, b).
    rewrite (IH _ Hf Hl). symmetry.
    apply (Nat.iter_succ_r (length l) next_state s).
Qed.

Lemma four_steps_home (n : nat) (s : States) :
  Nat.iter (4 * n) next_state s = s.
Proof.
  induction n as [|n IH]; [done|].
  replace (4 * S n) with (4 + 4 * n) by lia.
  rewrite Nat.iter_add, IH. by destruct s.
Qed.

Lemma step_walk op c :
  follow (state c) (transitions (events (step op) c)) =
    Some (state (final (step op) c)) /\
  forallb (fun e => edge e.1 e.2) (transitions (events (step op) c)) = true.
Proof.
  destruct c as [t hc rw st asf atf acw adw sd pd k sk skd ds wm].
  destruct op, st; crush_method; all_cases; done.
Qed.

(** X20. The assignments to the state made by a whole sequence of calls
    lead from the state before to the state after, one edge of the cycle
    at a time; so the state after the sequence is the state before it moved
    on by the number of assignments, counted modulo four. *)
Theorem execution_walks_the_cycle (ops : list call) c :
  let t := transitions (history ops c) in
  follow (state c) t = Some (state (steps ops c)) /\
  forallb (fun e => edge e.1 e.2) t = true /\
  state (steps ops c) = Nat.iter (length t `mod` 4) next_state (state c).
Proof.
  cbv zeta.
  assert (Hwalk : follow (state c) (transitions (history ops c)) =
                    Some (state (steps ops c)) /\
                  forallb (fun e => edge e.1 e.2)
                    (transitions (history ops c)) = true).
  { revert c. induction ops as [|op ops IH]; intros c; [done|].
    cbn [run_events run foldl].
    rewrite transitions_app, follow_app, forallb_app.
    destruct (step_walk op c) as [-> ->]. apply IH. }
  destruct Hwalk as [Hf He]. repeat split; [done..|].
  rewrite (follow_edges_iter _ _ _ Hf He).
  set (n := length (transitions (history ops c))).
  assert (Hn : n = n `mod` 4 + 4 * (n `div` 4))
    by (pose proof (Nat.div_mod_eq n 4); lia).
  clearbody n.
  transitivity (Nat.iter (n `mod` 4 + 4 * (n `div` 4)) next_state (state c));
    [by rewrite <- Hn|].
  by rewrite Nat.iter_add, four_steps_home.
Qed.

(** ** The worker's passwords *)

Lemma generated_passwords_spec (n id : nat) :
  generated_passwords n id =
    (fun i => "password_" +:+ pretty (S (id + i))) <$> seq 0 n.
Proof.
  revert id. induction n as [|n IH]; intros id; [done|].
  simpl. rewrite Nat.add_0_r. f_equal.
  rewrite IH, <- fmap_S_seq, <- list_fmap_compose.
  apply list_fmap_ext. intros _ i _. simpl. by rewrite Nat.add_succ_r.
Qed.

(** X19. The [n] passwords that [_generate_random_password] returns in [n]
    calls in a row are ["password_"] followed by the decimal numbers after
    the value of the counter, in order; no two of them are equal. *)
Theorem generated_passwords_distinct (n id : nat) :
  generated_passwords n id =
    (fun i => "password_" +:+ pretty (S (id + i))) <$> seq 0 n /\
  NoDup (generated_passwords n id).
Proof.
  split; [apply generated_passwords_spec|].
  rewrite generated_passwords_spec. apply NoDup_fmap_2; [|apply NoDup_seq].
  intros i j Hij. apply (inj (String.app "password_")) in Hij.
  apply (inj pretty) in Hij. lia.
Qed.

End Properties.

(** * Properties of the builder status *)

Section BuilderStatusProperties.

Import BuilderStatus.

Implicit Types (b : BuilderStatus) (s : Build) (state_raises finish_raises : nat -> bool).

Lemma elem_of_or_empty (t : string) (o : option (list string)) :
  t ∈ or_empty o <-> exists l, o = Some l /\ t ∈ l.
Proof.
  destruct o as [[|x l]|]; simpl.
  - rewrite elem_of_nil. split; [done|]. intros (l & [= <-] & Hl).
    by apply elem_of_nil in Hl.
  - split; [eauto|]. by intros (l' & [= <-] & Hl).
  - rewrite elem_of_nil. split; [done|]. by intros (l & ? & _).
Qed.

Lemma list_remove_Some {A} `{EqDecision A} (x : A) (l l' : list A) :
  list_remove x l = Some l' -> x :: l' ≡ₚ l.
Proof.
  revert l'. induction l as [|y l IH]; intros l'; simpl; [done|].
  destruct (decide (x = y)) as [->|Hne].
  - by intros [= ->].
  - destruct (list_remove x l) as [l''|] eqn:Hl; simpl; [|done].
    intros [= <-]. rewrite Permutation_swap. by rewrite (IH l'').
Qed.

Lemma list_remove_None {A} `{EqDecision A} (x : A) (l : list A) :
  list_remove x l = None <-> x ∉ l.
Proof.
  induction l as [|y l IH]; simpl.
  - split; [intros _; apply not_elem_of_nil|done].
  - rewrite not_elem_of_cons. destruct (decide (x = y)) as [->|Hne].
    + split; [done|]. by intros [? _].
    + destruct (list_remove x l); simpl.
      * split; [done|]. intros [_ Hl]. by apply IH in Hl.
      * split; [|done]. intros _. split; [done|]. by apply IH.
Qed.

Lemma list_remove_appended {A} `{EqDecision A} (x : A) (l : list A) :
  x ∉ l -> list_remove x (l ++ [x]) = Some l.
Proof.
  induction l as [|y l IH]; simpl.
  - intros _. by rewrite decide_True.
  - rewrite not_elem_of_cons. intros [Hne Hl].
    rewrite decide_False by done. by rewrite IH.
Qed.

Lemma called_publish_to state_raises (ws : list nat) (n state : string) :
  called (publish_to state_raises ws n state) = ws.
Proof.
  induction ws as [|w ws IH]; [done|].
  simpl. destruct (state_raises w); simpl; by rewrite IH.
Qed.

Lemma called_finish_to finish_raises (ws : list nat) (n : string) s :
  called (finish_to finish_raises ws n s) = ws.
Proof.
  induction ws as [|w ws IH]; [done|].
  simpl. destruct (finish_raises w); simpl; by rewrite IH.
Qed.

(** X21. [matchesAnyTag] answers [True] exactly when some tag of the
    builder is among the tags asked for; a builder whose tags are [None]
    matches nothing, and an empty question matches no builder. *)
Theorem matchesAnyTag_common_tag (query : list string) b :
  (matchesAnyTag query b = true <->
   exists l t, tags b = Some l /\ t ∈ l /\ t ∈ query) /\
  matchesAnyTag query
    (mkBuilderStatus (name b) None (description b) (workernames b)
       (currentBuilds b) (watchers b) (currentBigState b) (status b)) = false /\
  matchesAnyTag [] b = false.
Proof.
  assert (Hspec : forall q b',
            matchesAnyTag q b' = true <->
            exists l t, tags b' = Some l /\ t ∈ l /\ t ∈ q).
  { intros q b'. unfold matchesAnyTag. rewrite bool_decide_eq_true. split.
    - intros [t Ht]%set_choose_L.
      apply elem_of_intersection in Ht as [Ht Hq].
      apply elem_of_list_to_set, elem_of_or_empty in Ht as (l & Hl & Ht).
      apply elem_of_list_to_set in Hq. eauto.
    - intros (l & t & Hl & Ht & Hq). apply (non_empty_inhabited_L t).
      apply elem_of_intersection. split; apply elem_of_list_to_set; [|done].
      apply elem_of_or_empty. eauto. }
  split; [apply Hspec|]. split; apply not_true_iff_false; rewrite Hspec.
  - by intros (l & t & ? & _).
  - intros (l & t & _ & _ & Hq). by apply elem_of_nil in Hq.
Qed.

(** X22. [setBigState] stores the state given and tells the watchers only
    when it differs from the one stored before: then every watcher is
    called once, in the order of subscription, whether or not some of them
    raise; setting the same state again calls nobody. *)
Theorem setBigState_publishes_changes state_raises (state : string) b :
  let b' := (setBigState state_raises state b).1 in
  let t := (setBigState state_raises state b).2 in
  currentBigState b' = state /\
  watchers b' = watchers b /\
  currentBuilds b' = currentBuilds b /\
  called t = (if bool_decide (state = currentBigState b) then [] else watchers b) /\
  (state = currentBigState b -> setBigState state_raises state b = (b, [])) /\
  setBigState state_raises state b' = (b', []).
Proof.
  destruct b as [n tg d wn cb ws st ps].
  assert (Hsame : forall x : string, bool_decide (x <> x) = false)
    by (intros x; by apply bool_decide_false; intros []).
  unfold setBigState; simpl. destruct (decide (state = st)) as [->|Hne].
  - rewrite Hsame, bool_decide_true by done. simpl. rewrite Hsame.
    by repeat split.
  - rewrite bool_decide_true, bool_decide_false by done. simpl. rewrite Hsame.
    repeat split; [apply called_publish_to|done].
Qed.

(** X23. [subscribe] appends the receiver to the watchers and tells it the
    state before anything else; if the receiver raises there, the exception
    leaves [subscribe] with the receiver already among the watchers and the
    parent status not informed.  Then [subscribe] reads [self.status]: on a
    builder status whose parent has not assigned that attribute it raises
    [AttributeError], after the receiver was appended and told.
    [unsubscribe] of a receiver that is no watcher is a [ValueError] that
    changes nothing; otherwise it removes the receiver and then reads
    [self.status], with the same [AttributeError] when that is missing.
    A subscription that is followed by [unsubscribe] leaves the same
    watchers, and leaves them in the same order when the receiver was not
    subscribed before, whether or not the two calls raised. *)
Theorem subscribe_then_unsubscribe state_raises (receiver : nat) b :
  let b1 := (subscribe state_raises receiver b).1.1 in
  let b2 := (unsubscribe receiver b1).1.1 in
  watchers b1 = watchers b ++ [receiver] /\
  subscribe state_raises receiver b =
    (b1,
     builderChangedState receiver (name b) (currentBigState b) ::
     (if state_raises receiver then []
      else match status b with
           | Some _ => [_builder_subscribe (name b) receiver]
           | None => []
           end),
     if state_raises receiver then inl (WatcherException receiver)
     else match status b with
          | Some _ => inr tt
          | None => inl AttributeError
          end) /\
  (receiver ∉ watchers b -> unsubscribe receiver b = (b, [], inl ValueError)) /\
  (unsubscribe receiver b1).2 =
    match status b with
    | Some _ => inr tt
    | None => inl AttributeError
    end /\
  (unsubscribe receiver b1).1.2 =
    match status b with
    | Some _ => [_builder_unsubscribe (name b) receiver]
    | None => []
    end /\
  watchers b2 ≡ₚ watchers b /\
  (receiver ∉ watchers b -> b2 = b).
Proof.
  destruct b as [n tg d wn cb ws st ps]. unfold subscribe, unsubscribe; simpl.
  split; [by destruct (state_raises receiver), ps|].
  split; [by destruct (state_raises receiver), ps|].
  split.
  { intros Hnot%list_remove_None. by rewrite Hnot. }
  assert (Hremoved : exists ws', list_remove receiver (ws ++ [receiver]) = Some ws').
  { destruct (list_remove receiver (ws ++ [receiver])) as [ws'|] eqn:Hr; [eauto|].
    apply list_remove_None in Hr. destruct Hr. set_solver. }
  destruct Hremoved as [ws' Hws'].
  assert (Hb1 : (subscribe state_raises receiver
                   (mkBuilderStatus n tg d wn cb ws st ps)).1.1
                = mkBuilderStatus n tg d wn cb (ws ++ [receiver]) st ps).
  { unfold subscribe; simpl. by destruct (state_raises receiver), ps. }
  unfold subscribe in Hb1; simpl in Hb1. rewrite Hb1. simpl. rewrite Hws'.
  split; [by destruct ps|]. split; [by destruct ps|]. split.
  - apply list_remove_Some in Hws'.
    apply (Permutation_cons_inv (a:=receiver)).
    destruct ps; simpl; rewrite Hws'; by rewrite Permutation_app_comm.
  - intros Hnot. rewrite list_remove_appended in Hws' by done.
    injection Hws' as <-. by destruct ps.
Qed.

(** X24. [_buildFinished] of a build that is not in progress fails on its
    [assert] and changes nothing.  Otherwise it takes one occurrence of the
    build out of the builds in progress, leaves the other builds and the
    watchers alone, and calls every watcher once, in the order of
    subscription, whether or not some of them raise. *)
Theorem buildFinished_removes_one finish_raises s b :
  (s ∉ currentBuilds b ->
   _buildFinished finish_raises s b = (b, [], inl AssertFailed)) /\
  (s ∈ currentBuilds b ->
   exists builds,
     _buildFinished finish_raises s b =
       (with_currentBuilds builds b,
        finish_to finish_raises (watchers b) (name b) s, inr tt) /\
     s :: builds ≡ₚ currentBuilds b /\
     called (finish_to finish_raises (watchers b) (name b) s) = watchers b).
Proof.
  unfold _buildFinished. split.
  - intros Hnot. by rewrite bool_decide_false.
  - intros Hin. rewrite bool_decide_true by done.
    destruct (list_remove s (currentBuilds b)) as [builds|] eqn:Hr.
    + exists builds. split; [done|]. split; [by apply list_remove_Some|].
      apply called_finish_to.
    + by apply list_remove_None in Hr.
Qed.

(** X25. [cacheMiss] returns the value handed to it when there is one.
    Without one it looks only at the builds in progress: what it returns is
    such a build with the number asked for, and it returns [None] exactly
    when no build in progress has that number. *)
Theorem cacheMiss_current_builds (n : Z) (v : option Build) b :
  cacheMiss n (Some v) b = v /\
  (forall x, cacheMiss n None b = Some x -> x ∈ currentBuilds b /\ number x = n) /\
  (cacheMiss n None b = None <->
   forall x, x ∈ currentBuilds b -> number x <> n).
Proof.
  unfold cacheMiss. split; [done|]. split.
  - intros x [Hin Hn]%find_some. apply bool_decide_eq_true in Hn.
    split; [by apply list_elem_of_In|done].
  - split.
    + intros Hnone x Hin%list_elem_of_In.
      apply (find_none _ _ Hnone) in Hin. by apply bool_decide_eq_false in Hin.
    + intros Hall. destruct (find _ _) as [x|] eqn:Hf; [|done].
      apply find_some in Hf as [Hin%list_elem_of_In Hn%bool_decide_eq_true].
      by destruct (Hall x Hin).
Qed.

End BuilderStatusProperties.

(** * The properties at the sample collaborators *)

Lemma sample_reachable (ops : list (@call Sample.Props)) :
  reachable Sample.truthy Sample.render_kind true Awaitable (Sample.go ops).
Proof. exists (Sample.Property "worker_kind"), 600, ops. reflexivity. Qed.

(** C2: a failed start of the sample instance ends in STARTED. *)
Lemma failed_start_resolves_to_started_witness :
  state (final (LatentController_start_instance (Build:=Sample.Props) true Awaitable false)
           Sample.starting_large) = STARTED.
Proof.
  destruct (failed_start_resolves_to_started Sample.truthy Sample.render_kind true Awaitable
              Sample.starting_large (sample_reachable _) eq_refl)
    as (d & _ & _ & _ & _ & Hst & _).
  exact Hst.
Defined.

(** C2 as the specification words it fails: after the failed start the
    state is not STOPPED and the stored kind is still there. *)
Lemma failed_start_counterexample :
  reachable Sample.truthy Sample.render_kind true Awaitable Sample.starting_large /\
  state Sample.starting_large = STARTING /\
  let c' := final (LatentController_start_instance (Build:=Sample.Props) true Awaitable false)
              Sample.starting_large in
  state c' <> STOPPED /\ _started_kind c' <> None.
Proof.
  split; [apply sample_reachable|]. vm_compute. repeat split; discriminate.
Qed.

(** C3: a failed stop of the sample instance ends in STOPPED with the
    failure delivered. *)
Lemma stop_resolves_to_stopped_witness :
  exists d,
    _stop_deferred Sample.stopping_large = Some d /\
    let c' := final (LatentController_stop_instance (Build:=Sample.Props) false)
                Sample.stopping_large in
    state c' = STOPPED /\ _started_kind c' = None /\
    deferreds c' !! d = Some (Some false).
Proof.
  destruct (stop_resolves_to_stopped Sample.truthy Sample.render_kind true Awaitable false
              Sample.stopping_large (sample_reachable _) eq_refl)
    as (d & Hd & _ & _ & _ & _ & Hst & Hk & _ & Hf).
  exists d. repeat split; assumption.
Defined.

(** C4: the fresh controller accepts any build; the started one accepts
    the build of its own kind; and on the controller whose start was given
    no build, where the request and the stored kind are both [None], the
    check raises [TypeError]. *)
Lemma compatibility_resolution_witness :
  value (isCompatibleWithBuild Sample.truthy Sample.render_kind Sample.unspecified)
    Sample.fresh = inr true /\
  (exists answer,
    value (isCompatibleWithBuild Sample.truthy Sample.render_kind Sample.large)
      Sample.started_large = inr answer /\
    (answer = true <->
     Sample.render_kind Sample.large (kind Sample.started_large) =
       _started_kind
         (final (isCompatibleWithBuild Sample.truthy Sample.render_kind Sample.large)
            Sample.started_large))) /\
  state Sample.starting_without_build = STARTING /\
  Sample.render_kind Sample.unspecified (kind Sample.starting_without_build) = None /\
  _started_kind Sample.starting_without_build = None /\
  value (isCompatibleWithBuild Sample.truthy Sample.render_kind Sample.unspecified)
    Sample.starting_without_build = inl TypeError.
Proof.
  split; [|split].
  - destruct (compatibility_resolution Sample.truthy Sample.render_kind
                Sample.unspecified Sample.fresh) as [Hstopped _].
    unfold value. rewrite (Hstopped eq_refl). reflexivity.
  - destruct (compatibility_resolution Sample.truthy Sample.render_kind
                Sample.large Sample.started_large) as (_ & Hrunning & _).
    destruct (Hrunning (or_intror eq_refl) eq_refl) as (_ & _ & Hanswer).
    exact Hanswer.
  - destruct (compatibility_resolution Sample.truthy Sample.render_kind
                Sample.unspecified Sample.starting_without_build)
      as (_ & _ & Hraises).
    unfold value. rewrite (Hraises (or_introl eq_refl) eq_refl).
    repeat split.
Defined.

(** C5: while the stop is in flight the comparison is still made. *)
Lemma compatibility_while_stopping_witness :
  exists answer,
    value (isCompatibleWithBuild Sample.truthy Sample.render_kind Sample.unspecified)
      Sample.stopping_large = inr answer /\
    (answer = true <->
     Sample.render_kind Sample.unspecified (kind Sample.stopping_large) =
       _started_kind
         (final (isCompatibleWithBuild Sample.truthy Sample.render_kind
                   Sample.unspecified)
            Sample.stopping_large)).
Proof.
  apply (compatibility_while_stopping Sample.truthy Sample.render_kind
           Sample.unspecified Sample.stopping_large); reflexivity.
Defined.

(** C5 as the specification words it fails: a build of the kind that was
    started is judged compatible while the worker is STOPPING. *)
Lemma compatibility_while_stopping_counterexample :
  reachable Sample.truthy Sample.render_kind true Awaitable Sample.stopping_large /\
  state Sample.stopping_large = STOPPING /\
  value (isCompatibleWithBuild Sample.truthy Sample.render_kind Sample.large)
    Sample.stopping_large = inr true.
Proof. split; [apply sample_reachable|]. vm_compute. by split. Qed.

(** C6: the started sample worker has a kind, so a request without one is
    answered [False]. *)
Lemma absent_request_needs_absent_kind_witness :
  exists answer,
    value (isCompatibleWithBuild Sample.truthy Sample.render_kind Sample.unspecified)
      Sample.started_large = inr answer /\
    (answer = true <->
     _started_kind
       (final (isCompatibleWithBuild Sample.truthy Sample.render_kind
                 Sample.unspecified)
          Sample.started_large) = None).
Proof.
  apply (absent_request_needs_absent_kind Sample.truthy Sample.render_kind
           Sample.unspecified Sample.started_large); reflexivity.
Defined.

(** C6 as the specification words it fails: the request without a kind
    is not compatible with the worker started with kind ["large"]. *)
Lemma absent_request_counterexample :
  reachable Sample.truthy Sample.render_kind true Awaitable Sample.started_large /\
  state Sample.started_large = STARTED /\
  Sample.render_kind Sample.unspecified (kind Sample.started_large) = None /\
  value (isCompatibleWithBuild Sample.truthy Sample.render_kind Sample.unspecified)
    Sample.started_large = inr false.
Proof. split; [apply sample_reachable|]. vm_compute. by repeat split. Qed.



(** C9: the started sample worker has its session; connecting again
    changes nothing. *)
Lemma connect_worker_idempotent_witness :
  connect_worker (Build:=Sample.Props) true Awaitable Sample.started_large =
    (Sample.started_large, [], inr tt).
Proof.
  destruct (connect_worker_idempotent (Build:=Sample.Props) true Awaitable Sample.started_large)
    as [Hattached _].
  apply (Hattached 0). reflexivity.
Defined.

(** * The further properties at the sample collaborators *)

(** X1: the start in flight of the sample controller has its Deferred. *)
Lemma waiter_invariant_witness :
  exists d, _start_deferred Sample.starting = Some d /\
            deferreds Sample.starting !! d = Some None.
Proof.
  destruct (waiter_invariant Sample.truthy Sample.render_kind true Awaitable
              Sample.starting (sample_reachable _)) as [Hstart _].
  apply Hstart. reflexivity.
Defined.

(** X2: reading the kind while the start is in flight leaves its
    Deferred alone. *)
Lemma in_flight_deferred_untouched_witness :
  _start_deferred
    (final (exec Sample.truthy Sample.render_kind true Awaitable CallGetStartedKind)
       Sample.starting) = _start_deferred Sample.starting.
Proof.
  destruct (in_flight_deferred_untouched Sample.truthy Sample.render_kind true Awaitable
              CallGetStartedKind Sample.starting) as [Hstart _].
  destruct (Hstart eq_refl eq_refl) as [Hsame _]. exact Hsame.
Defined.

(** X4: the first start of the sample controller, resolved with
    success, when [setServiceParent] returns nothing to await: the
    resolution raises and the Deferred of the start has not fired. *)
Lemma start_then_resolve_delivers_witness :
  let c1 := final (ControllableLatentWorker_start_instance Sample.render_kind
                     true NotAwaitable (Some Sample.large)) Sample.fresh in
  value (LatentController_start_instance (Build:=Sample.Props) true NotAwaitable true)
    c1 = inl TypeError /\
  deferreds
    (final (LatentController_start_instance (Build:=Sample.Props) true NotAwaitable true)
       c1) = [None].
Proof.
  destruct (start_then_resolve_delivers Sample.render_kind true NotAwaitable
              (Some Sample.large) true Sample.fresh eq_refl eq_refl)
    as (_ & _ & _ & _ & Hvalue & _ & Hstore & _).
  split; [exact Hvalue | exact Hstore].
Defined.

(** X5: the stop of the started sample worker, resolved with success. *)
Lemma stop_then_resolve_delivers_witness :
  state
    (final (LatentController_stop_instance (Build:=Sample.Props) true)
       (final (ControllableLatentWorker_stop_instance (Build:=Sample.Props) false)
          Sample.started_large)) = STOPPED.
Proof.
  destruct (stop_then_resolve_delivers (Build:=Sample.Props) false true
              Sample.started_large eq_refl eq_refl)
    as (_ & _ & _ & _ & Hstate & _).
  exact Hstate.
Defined.

(** X6: with automatic start the sample worker is started at once. *)
Lemma auto_start_completes_at_once_witness :
  state
    (final (ControllableLatentWorker_start_instance Sample.render_kind true Awaitable
              (Some Sample.large))
       (Sample.go [CallAutoStart true])) = STARTED.
Proof.
  destruct (auto_start_completes_at_once Sample.render_kind true Awaitable
              (Some Sample.large) (Sample.go [CallAutoStart true])
              eq_refl eq_refl) as (_ & Hstate & _).
  exact Hstate.
Defined.

(** X7: with automatic stop the sample worker is stopped at once. *)
Lemma auto_stop_completes_at_once_witness :
  state
    (final (ControllableLatentWorker_stop_instance (Build:=Sample.Props) true)
       (Sample.go [CallWorkerStartInstance (Some Sample.large);
                   CallStartInstance true; CallAutoStop true])) = STOPPED.
Proof.
  destruct (auto_stop_completes_at_once (Build:=Sample.Props) true
              (Sample.go [CallWorkerStartInstance (Some Sample.large);
                          CallStartInstance true; CallAutoStop true])
              eq_refl eq_refl) as (_ & Hstate & _).
  exact Hstate.
Defined.

(** X8: with automatic start switched on while a start was in flight,
    the sample controller is not STARTING any more. *)
Lemma auto_flags_leave_nothing_in_flight_witness :
  state (Sample.go [CallWorkerStartInstance (Some Sample.large);
                    CallAutoStart true]) <> STARTING.
Proof.
  destruct (auto_flags_leave_nothing_in_flight Sample.truthy Sample.render_kind
              true Awaitable _ (sample_reachable
                        [CallWorkerStartInstance (Some Sample.large);
                         CallAutoStart true])) as [Hstart _].
  apply Hstart. reflexivity.
Defined.

(** X9: on the fresh controller there is no start to resolve. *)
Lemma rejected_call_changes_nothing_witness :
  LatentController_start_instance (Build:=Sample.Props) true Awaitable true Sample.fresh =
    (Sample.fresh, [], inl AssertionError).
Proof.
  destruct (rejected_call_changes_nothing (Build:=Sample.Props) true Awaitable true false
              Sample.fresh) as (Hstart & _ & _).
  apply Hstart. discriminate.
Defined.

(** X10: a second start of the started sample worker is refused, but the
    kind slot has been overwritten. *)
Lemma rejected_start_overwrites_kind_slot_witness :
  _started_kind_deferred
    (final (ControllableLatentWorker_start_instance Sample.render_kind true Awaitable
              (Some Sample.unspecified))
       Sample.started_large) = SlotDeferred None.
Proof.
  destruct (rejected_start_overwrites_kind_slot Sample.render_kind true Awaitable
              (Some Sample.unspecified) Sample.started_large)
    as (_ & _ & _ & _ & _ & Hslot); [discriminate|].
  exact Hslot.
Defined.

(** X11: the start of the sample controller resolved with success
    attaches the first session and fires the Deferred of the start. *)
Lemma successful_start_resolution_witness :
  let c' := final (LatentController_start_instance (Build:=Sample.Props)
                     true Awaitable true) Sample.starting in
  remote_worker c' = Some 0 /\
  value (LatentController_start_instance (Build:=Sample.Props) true Awaitable true)
    Sample.starting = inr tt /\
  _start_deferred c' = None.
Proof.
  destruct (successful_start_resolution Sample.truthy Sample.render_kind true
              Awaitable Sample.starting (sample_reachable _) eq_refl)
    as (d & _ & _ & _ & Hsession & Hout).
  destruct Hout as (Hvalue & Hgone & _).
  cbv zeta. split; [exact Hsession|]. split; [exact Hvalue | exact Hgone].
Defined.

(** X12: the same start without the worker package. *)
Lemma start_without_worker_package_witness :
  value (LatentController_start_instance (Build:=Sample.Props) false Awaitable true)
    Sample.starting = inl SkipTest.
Proof.
  destruct (start_without_worker_package (Build:=Sample.Props) false Awaitable true
              Sample.starting eq_refl eq_refl eq_refl eq_refl) as (Hvalue & _).
  exact Hvalue.
Defined.

(** X15: the rendering for the stopped sample worker is still read. *)
Lemma stale_rendering_survives_stop_witness :
  value (get_started_kind (Build:=Sample.Props) Sample.truthy)
    (final (LatentController_stop_instance (Build:=Sample.Props) true)
       (Sample.go [CallWorkerStartInstance (Some Sample.large);
                   CallStartInstance true; CallWorkerStopInstance false])) =
    inr (Some "large"%string).
Proof.
  destruct (stale_rendering_survives_stop (Build:=Sample.Props) Sample.truthy
              true (Some "large"%string)
              (Sample.go [CallWorkerStartInstance (Some Sample.large);
                          CallStartInstance true; CallWorkerStopInstance false])
              eq_refl eq_refl) as (_ & _ & _ & Hvalue & _).
  exact Hvalue.
Defined.

(** X17: the stop of the sample worker can be resolved. *)
Lemma resolution_finds_its_deferred_witness :
  value (LatentController_stop_instance (Build:=Sample.Props) false)
    Sample.stopping_large = inr tt.
Proof.
  destruct (resolution_finds_its_deferred Sample.truthy Sample.render_kind true Awaitable
              false Sample.stopping_large (sample_reachable _)) as (Hstop & _).
  exact Hstop.
Defined.

(** X18: a session attached to the fresh controller, with a
    [setServiceParent] that returns nothing to await, and detached again. *)
Lemma connect_disconnect_round_trip_witness :
  let c1 := final (connect_worker (Build:=Sample.Props) true NotAwaitable)
              Sample.fresh in
  value (connect_worker (Build:=Sample.Props) true NotAwaitable) Sample.fresh =
    inl TypeError /\
  remote_worker c1 = Some 0 /\
  final (disconnect_worker (Build:=Sample.Props)) c1 =
    with_workers_made 1 Sample.fresh.
Proof.
  destruct (connect_disconnect_round_trip (Build:=Sample.Props) true NotAwaitable
              Sample.fresh eq_refl eq_refl) as (Hconnect & Hsession & Hback).
  cbv zeta. split; [|split].
  - unfold value. by rewrite Hconnect.
  - exact Hsession.
  - unfold final at 1. by rewrite Hback.
Defined.

(** X22: the new builder is offline already; nobody is told. *)
Lemma setBigState_publishes_changes_witness :
  BuilderStatus.setBigState (fun _ => false) "offline"%string
    (BuilderStatus.init "runtests"%string None ""%string) =
    (BuilderStatus.init "runtests"%string None ""%string, []).
Proof.
  destruct (setBigState_publishes_changes (fun _ => false) "offline"%string
              (BuilderStatus.init "runtests"%string None ""%string))
    as (_ & _ & _ & _ & Hsame & _).
  apply Hsame. reflexivity.
Defined.

(** X23: the first receiver of a builder whose parent has assigned its
    status, subscribed and unsubscribed. *)
Lemma subscribe_then_unsubscribe_witness :
  let b := BuilderStatus.with_status (Some 0)
             (BuilderStatus.init "runtests"%string None ""%string) in
  (BuilderStatus.unsubscribe 7
     (BuilderStatus.subscribe (fun _ => false) 7 b).1.1).2 = inr tt /\
  (BuilderStatus.unsubscribe 7
     (BuilderStatus.subscribe (fun _ => false) 7 b).1.1).1.1 = b.
Proof.
  destruct (subscribe_then_unsubscribe (fun _ => false) 7
              (BuilderStatus.with_status (Some 0)
                 (BuilderStatus.init "runtests"%string None ""%string)))
    as (_ & _ & _ & Hvalue & _ & _ & Hback).
  split; [exact Hvalue|]. apply Hback. apply not_elem_of_nil.
Defined.

(** X24: a new builder has no build that could finish. *)
Lemma buildFinished_removes_one_witness :
  BuilderStatus._buildFinished (fun _ => false)
    (BuilderStatus.mkBuild 0 12 0) (BuilderStatus.init "runtests"%string None ""%string) =
    (BuilderStatus.init "runtests"%string None ""%string, [], inl BuilderStatus.AssertFailed).
Proof.
  destruct (buildFinished_removes_one (fun _ => false)
              (BuilderStatus.mkBuild 0 12 0)
              (BuilderStatus.init "runtests"%string None ""%string)) as [Hnot _].
  apply Hnot. apply not_elem_of_nil.
Defined.

(** X25: a new builder finds no build number 12. *)
Lemma cacheMiss_current_builds_witness :
  BuilderStatus.cacheMiss 12 None (BuilderStatus.init "runtests"%string None ""%string) = None.
Proof.
  destruct (cacheMiss_current_builds 12 None
              (BuilderStatus.init "runtests"%string None ""%string)) as (_ & _ & Hnone).
  apply Hnone. intros x Hx. by apply elem_of_nil in Hx.
Defined.
